(** * tk-multi-snapshot: the snapshot handler of
    [python/tk_multi_snapshot/snapshot.py], embedded shallowly.

    The handler talks to four kinds of collaborators that are not part of
    the repository: the path templates of the toolkit ([validate],
    [get_fields], [apply_fields], [paths_from_template]), the hooks of the
    application (scene save / open, file copy), the YAML codec and the
    clock.  They are gathered in the record [app]; every method of the
    class [Snapshot] becomes a function over an [app] and a [world]
    (the files on disk plus a trace of what the handler asked of its
    collaborators).  Python exceptions are the left summand of [res]. *)

From Stdlib Require Import ZArith String Ascii List Lia.
From Stdlib Require Import DecimalString.
From stdpp Require Import base option list gmap strings.

Local Open Scope string_scope.
Local Open Scope Z_scope.

(** ** Python values, exceptions *)

Record datetime := Datetime {
  year : Z; month : Z; day : Z; hour : Z; minute : Z; second : Z;
  microsecond : Z
}.

Inductive pyval :=
| PNone
| PInt (z : Z)
| PStr (s : string)
| PDatetime (d : datetime).

(** Truth value of an object, as tested by [if x:] and [not x]. *)
Definition truthy (v : pyval) : bool :=
  match v with
  | PNone => false
  | PInt z => negb (z =? 0)
  | PStr s => negb (String.eqb s "")
  | PDatetime _ => true
  end.

Definition str_truthy (s : string) : bool := negb (String.eqb s "").

Inductive exn :=
| TankError (msg : string)
| ValueError
| TypeError
| AttributeError
| KeyError
| IOError
| OSError
| YAMLError
| HookError (msg : string).

(** A call that returns or raises. *)
Definition res (A : Type) : Type := exn + A.

#[global] Instance res_ret : MRet res := fun _ x => inr x.
#[global] Instance res_bind : MBind res := fun _ _ f m =>
  match m with inl e => inl e | inr x => f x end.

(** A dict with string keys, as the template fields are. *)
Abbreviation fields := (gmap string pyval).

(** ** [os.path] (posixpath) *)

Module os_path.

(** [s.rfind(c)], with the index of the head of [s] being [i]; -1 when
    [c] does not occur. *)
Fixpoint rfind_from (c : ascii) (s : string) (i : Z) : Z :=
  match s with
  | EmptyString => -1
  | String x rest =>
      let r := rfind_from c rest (i + 1) in
      if 0 <=? r then r else if Ascii.eqb x c then i else -1
  end.

Definition rfind (c : ascii) (s : string) : Z := rfind_from c s 0.

(** [s[i:]] and [s[:i]] for [0 <= i]. *)
Fixpoint drop (n : nat) (s : string) : string :=
  match n, s with
  | O, _ => s
  | S n', EmptyString => EmptyString
  | S n', String _ rest => drop n' rest
  end.

Fixpoint take (n : nat) (s : string) : string :=
  match n, s with
  | O, _ => EmptyString
  | S n', EmptyString => EmptyString
  | S n', String x rest => String x (take n' rest)
  end.

(** [s.rstrip('/')] *)
Fixpoint rstrip (c : ascii) (s : string) : string :=
  match s with
  | EmptyString => EmptyString
  | String x rest =>
      match rstrip c rest with
      | EmptyString => if Ascii.eqb x c then EmptyString else String x EmptyString
      | r => String x r
      end
  end.

Fixpoint all_char (c : ascii) (s : string) : bool :=
  match s with
  | EmptyString => true
  | String x rest => Ascii.eqb x c && all_char c rest
  end.

Definition basename (p : string) : string :=
  let i := rfind "/" p + 1 in
  drop (Z.to_nat i) p.

Definition dirname (p : string) : string :=
  let i := rfind "/" p + 1 in
  let head := take (Z.to_nat i) p in
  if str_truthy head && negb (all_char "/" head) then rstrip "/" head else head.

(** [genericpath._splitext(p, '/', None, '.')]: the extension starts at
    the last dot of the last component, unless that component has
    nothing but dots before it. *)
Definition splitext (p : string) : string * string :=
  let sepIndex := rfind "/" p in
  let dotIndex := rfind "." p in
  if sepIndex <? dotIndex then
    let filenameIndex := sepIndex + 1 in
    let lead := take (Z.to_nat (dotIndex - filenameIndex))
                     (drop (Z.to_nat filenameIndex) p) in
    if negb (all_char "." lead)
    then (take (Z.to_nat dotIndex) p, drop (Z.to_nat dotIndex) p)
    else (p, "")
  else (p, "").

End os_path.

(** ** Timestamps: [strftime] and [strptime] at [TIMESTAMP_FMT] *)

Module Timestamp.

Definition is_digit (c : ascii) : bool :=
  let n := Z.of_nat (nat_of_ascii c) in (48 <=? n) && (n <=? 57).

Fixpoint all_digits (s : string) : bool :=
  match s with
  | EmptyString => true
  | String c rest => is_digit c && all_digits rest
  end.

Fixpoint digits_value (acc : Z) (s : string) : Z :=
  match s with
  | EmptyString => acc
  | String c rest => digits_value (10 * acc + (Z.of_nat (nat_of_ascii c) - 48)) rest
  end.

(** [s.split(sep)] for a one-character separator. *)
Fixpoint split_on (sep : ascii) (s : string) : list string :=
  match s with
  | EmptyString => [EmptyString]
  | String c rest =>
      if Ascii.eqb c sep then EmptyString :: split_on sep rest
      else match split_on sep rest with
           | [] => [String c EmptyString]
           | w :: ws => String c w :: ws
           end
  end.

(** A run of [lo..hi] decimal digits, read as a number. *)
Definition number (lo hi : nat) (s : string) : option Z :=
  let n := String.length s in
  if all_digits s && (lo <=? n)%nat && (n <=? hi)%nat
  then Some (digits_value 0 s) else None.

Definition in_range (lo hi : Z) (o : option Z) : option Z :=
  match o with
  | Some v => if (lo <=? v) && (v <=? hi) then Some v else None
  | None => None
  end.

(** The directives of the format, as [_strptime] matches them:
    [%Y] is four digits; [%m], [%d], [%H], [%M], [%S] are one or two
    digits within the directive's range ([%d] also takes a blank and a
    digit; [%S] goes up to 61). *)
Definition dir_Y (s : string) : option Z := number 4 4 s.
Definition dir_m (s : string) : option Z := in_range 1 12 (number 1 2 s).
Definition dir_d (s : string) : option Z :=
  match s with
  | String " " rest => in_range 1 9 (number 1 1 rest)
  | _ => in_range 1 31 (number 1 2 s)
  end.
Definition dir_H (s : string) : option Z := in_range 0 23 (number 1 2 s).
Definition dir_M (s : string) : option Z := in_range 0 59 (number 1 2 s).
Definition dir_S (s : string) : option Z := in_range 0 61 (number 1 2 s).

Definition is_leap (y : Z) : bool :=
  (y mod 4 =? 0) && (negb (y mod 100 =? 0) || (y mod 400 =? 0)).

Definition days_in_month (y m : Z) : Z :=
  if m =? 2 then (if is_leap y then 29 else 28)
  else if (m =? 4) || (m =? 6) || (m =? 9) || (m =? 11) then 30 else 31.

(** The constructor of [datetime] checks its arguments. *)
Definition make_datetime (y mo d h mi s us : Z) : res datetime :=
  if (1 <=? y) && (y <=? 9999) && (1 <=? mo) && (mo <=? 12)
     && (1 <=? d) && (d <=? days_in_month y mo)
     && (0 <=? h) && (h <=? 23) && (0 <=? mi) && (mi <=? 59)
     && (0 <=? s) && (s <=? 59) && (0 <=? us) && (us <=? 999999)
  then inr (Datetime y mo d h mi s us) else inl ValueError.

(** [datetime.strptime(s, "%Y-%m-%d-%H-%M-%S")]: the format has no
    [%f], the microsecond of the result is 0. *)
Definition strptime (s : string) : res datetime :=
  match split_on "-" s with
  | [pY; pm; pd; pH; pM; pS] =>
      match dir_Y pY, dir_m pm, dir_d pd, dir_H pH, dir_M pM, dir_S pS with
      | Some y, Some mo, Some d, Some h, Some mi, Some sec =>
          make_datetime y mo d h mi sec 0
      | _, _, _, _, _, _ => inl ValueError
      end
  | _ => inl ValueError
  end.

Definition decimal (z : Z) : string :=
  NilEmpty.string_of_uint (N.to_uint (Z.to_N z)).

Fixpoint zeros (n : nat) : string :=
  match n with O => EmptyString | S n' => String "0" (zeros n') end.

(** [%0<width>d] *)
Definition zpad (width : nat) (z : Z) : string :=
  let d := if z =? 0 then "0" else decimal z in
  zeros (width - String.length d) +:+ d.

(** [d.strftime("%Y-%m-%d-%H-%M-%S")], for the four-digit years a
    clock shows; the microsecond is not printed. *)
Definition strftime (d : datetime) : string :=
  zpad 4 (year d) +:+ "-" +:+ zpad 2 (month d) +:+ "-" +:+ zpad 2 (day d)
  +:+ "-" +:+ zpad 2 (hour d) +:+ "-" +:+ zpad 2 (minute d)
  +:+ "-" +:+ zpad 2 (second d).

End Timestamp.

(** ** The world and the collaborators *)

(** What the handler asks of the outside, in the order it asks. *)
Inductive event :=
| EvExecuteHook (hook_name : string) (args : list string)
| EvLogDebug (msg : string)
| EvLogWarning (msg : string)
| EvOpen (path : string) (mode : string)
| EvRemove (path : string).

(** The disk holds regular files only: a path exists when it has a
    content.  Paths are POSIX paths. *)
Record world := World {
  files : gmap string string;   (* path  |->  content *)
  clock : datetime;             (* what datetime.now() returns *)
  trace : list event
}.

(** A method running in a world: it returns or raises, and leaves a world
    behind in both cases. *)
Definition M (A : Type) : Type := world → res A * world.

#[global] Instance M_ret : MRet M := fun _ x w => (inr x, w).
#[global] Instance M_bind : MBind M := fun _ _ f m w =>
  match m w with
  | (inl e, w') => (inl e, w')
  | (inr x, w') => f x w'
  end.

Definition raise {A} (e : exn) : M A := fun w => (inl e, w).
Definition lift {A} (r : res A) : M A := fun w => (r, w).
Definition emit (ev : event) : M unit :=
  fun w => (inr tt, World (files w) (clock w) (trace w ++ [ev])).

(** [try: body finally: cleanup] *)
Definition try_finally {A} (body : M A) (cleanup : M unit) : M A := fun w =>
  match body w with
  | (r, w') =>
      match cleanup w' with
      | (inl e, w'') => (inl e, w'')
      | (inr _, w'') => (r, w'')
      end
  end.

Record template := Template {
  validate : string → bool;
  get_fields : string → res fields;
  apply_fields : fields → res string;
  keys : list string
}.

(** What a YAML document loads to: a mapping of strings, or anything
    else (an empty document, a scalar, a sequence). *)
Inductive ydoc :=
| YMap (m : gmap string string)
| YOther.

(** A QPixmap: whether it is null, and the PNG bytes [save] writes
    ([None] when [save] returns False). *)
Record pixmap := Pixmap { isNull : bool; png : option string }.

Record app := App {
  template_work : template;
  template_snapshot : template;
  (* execute_hook("hook_scene_operation", operation=..., file_path=...) *)
  hook_scene_operation :
    string → string → gmap string string → res pyval * gmap string string;
  (* execute_hook("hook_copy_file", source_path=..., target_path=...) *)
  hook_copy_file :
    string → string → gmap string string → res pyval * gmap string string;
  (* tank.paths_from_template(template, fields, skip_keys) *)
  paths_from_template :
    template → fields → list string → gmap string string → res (list string);
  yaml_load : string → res ydoc;
  yaml_dump : gmap string string → string;
  (* the name tempfile.NamedTemporaryFile picks *)
  temp_name : gmap string string → string
}.

Definition log_debug (msg : string) : M unit := emit (EvLogDebug msg).
Definition log_warning (msg : string) : M unit := emit (EvLogWarning msg).

Definition get_files : M (gmap string string) := fun w => (inr (files w), w).
Definition put_files (fs : gmap string string) : M unit :=
  fun w => (inr tt, World fs (clock w) (trace w)).

(** [os.path.exists(path)] *)
Definition exists_ (path : string) : M bool :=
  fs ← get_files; mret (bool_decide (is_Some (fs !! path))).

(** [datetime.now()] *)
Definition now : M datetime := fun w => (inr (clock w), w).

(** [open(path, "r").read()] *)
Definition read_file (path : string) : M string :=
  emit (EvOpen path "r") ;;
  fs ← get_files;
  match fs !! path with
  | Some c => mret c
  | None => raise IOError
  end.

(** [open(path, "w").write(content)] *)
Definition write_file (path content : string) : M unit :=
  emit (EvOpen path "w") ;;
  fs ← get_files;
  put_files (<[path := content]> fs).

(** [os.remove(path)] *)
Definition remove (path : string) : M unit :=
  emit (EvRemove path) ;;
  fs ← get_files;
  match fs !! path with
  | Some _ => put_files (delete path fs)
  | None => raise OSError
  end.

(** [app.execute_hook(name, ...)]: the hook works on the files and
    returns or raises. *)
Definition execute_hook (name : string) (args : list string)
    (h : gmap string string → res pyval * gmap string string) : M pyval :=
  emit (EvExecuteHook name args) ;;
  fs ← get_files;
  put_files (h fs).2 ;;
  lift (h fs).1.

(** ** The class [Snapshot] *)

Section Snapshot.

Variable self : app.

Definition save_current_file : M unit :=
  execute_hook "hook_scene_operation" ["save"; ""]
           (hook_scene_operation self "save" "") ;; mret tt.

Definition get_current_file_path : M pyval :=
  execute_hook "hook_scene_operation" ["current_path"; ""]
           (hook_scene_operation self "current_path" "").

Definition open_file (file_path : string) : M unit :=
  execute_hook "hook_scene_operation" ["open"; file_path]
           (hook_scene_operation self "open" file_path) ;; mret tt.

Definition copy_file (source_path target_path : string) : M unit :=
  execute_hook "hook_copy_file" [source_path; target_path]
           (hook_copy_file self source_path target_path) ;; mret tt.

(** The body is [pass]: the method returns None. *)
Definition _find_next_snapshot_increment (snapshot_fields : fields) : pyval :=
  PNone.

Definition _get_thumbnail_file_path (snapshot_file_path : string) : string :=
  (os_path.splitext snapshot_file_path).1 +:+ ".tank_thumb.png".

Definition _get_comments_file_path (snapshot_file_path : string) : res string :=
  let snapshot_dir := os_path.dirname snapshot_file_path in
  fields ← get_fields (template_snapshot self) snapshot_file_path;
  let fields := <["version" := PInt 0]> fields in
  work_path ← apply_fields (template_work self) fields;
  let work_file_name := os_path.basename work_path in
  let work_file_title := (os_path.splitext work_file_name).1 in
  mret (snapshot_dir +:+ "/" +:+ work_file_title +:+ ".tank_comments.yml").

(** [comments = {}; if os.path.exists(p): comments = yaml.load(open(p, "r"))] *)
Definition load_comments (comments_file_path : string) : M ydoc :=
  ex ← exists_ comments_file_path;
  if ex : bool then
    content ← read_file comments_file_path;
    lift (yaml_load self content)
  else mret (YMap ∅).

Definition _add_snapshot_comment (snapshot_file_path comment : string) : M unit :=
  if negb (validate (template_snapshot self) snapshot_file_path) then
    log_warning ("Could not add comment to invalid snapshot path "
                 +:+ snapshot_file_path +:+ "!")
  else
    comments_file_path ← lift (_get_comments_file_path snapshot_file_path);
    log_debug ("Snapshot: Adding comment to file " +:+ comments_file_path) ;;
    comments ← load_comments comments_file_path;
    let comments_key := os_path.basename snapshot_file_path in
    match comments with
    | YMap m =>
        write_file comments_file_path
                   (yaml_dump self (<[comments_key := comment]> m))
    | YOther => raise TypeError   (* no item assignment *)
    end.

Definition _get_snapshot_comments (file_path : string) : M ydoc :=
  comments_file_path ← lift (_get_comments_file_path file_path);
  load_comments comments_file_path.

Definition _add_snapshot_thumbnail (snapshot_file_path : string)
    (thumbnail : option pixmap) : M unit :=
  match thumbnail with
  | None => mret tt
  | Some pm =>
      if isNull pm then mret tt else
      fs ← get_files;
      let temp_path := temp_name self fs in
      write_file temp_path "" ;;
      try_finally
        (match png pm with
         | None =>
             raise (TankError ("Snapshot: Failed to save thumbnail to '"
                               +:+ temp_path +:+ "'"))
         | Some bytes => write_file temp_path bytes
         end ;;
         let thumbnail_path := _get_thumbnail_file_path snapshot_file_path in
         log_debug ("Snapshot: Copying " +:+ temp_path +:+ " --> " +:+ thumbnail_path) ;;
         copy_file temp_path thumbnail_path)
        (remove temp_path)
  end.

(** The fields of the new snapshot: those of the work file, the
    timestamp, and the increment when the snapshot template has one. *)
Definition snapshot_fields (t : datetime) (fields : fields) : gmap string pyval :=
  let fields := <["timestamp" := PStr (Timestamp.strftime t)]> fields in
  if bool_decide ("increment" ∈ keys (template_snapshot self))
  then <["increment" := _find_next_snapshot_increment ∅]> fields
  else fields.

Definition do_snapshot (work_path : string) (thumbnail : option pixmap)
    (comment : string) : M unit :=
  save_current_file ;;
  ex ← exists_ work_path;
  if negb ex then
    raise (TankError ("Snapshot: Work file " +:+ work_path
                      +:+ " could not be found on disk!"))
  else if negb (validate (template_work self) work_path) then
    raise (TankError ("Unable to snapshot non-work file " +:+ work_path))
  else
    fields ← lift (get_fields (template_work self) work_path);
    t ← now;
    let fields := snapshot_fields t fields in
    snapshot_path ← lift (apply_fields (template_snapshot self) fields);
    log_debug ("Snapshot: Copying " +:+ work_path +:+ " --> " +:+ snapshot_path) ;;
    copy_file work_path snapshot_path ;;
    ex ← exists_ snapshot_path;
    if negb ex then
      raise (TankError ("Snapshot: Failed to copy work file from '" +:+ work_path
                        +:+ "' to '" +:+ snapshot_path +:+ "'"))
    else
      (if str_truthy comment then _add_snapshot_comment snapshot_path comment
       else mret tt) ;;
      (if thumbnail is Some _ then _add_snapshot_thumbnail snapshot_path thumbnail
       else mret tt).

Definition restore_comment (snapshot_path : string) : string :=
  "Automatic snapshot before restoring older snapshot '"
  +:+ os_path.basename snapshot_path +:+ "'".

Definition restore_snapshot (snapshot_path : string) : M unit :=
  if negb (str_truthy snapshot_path) then mret tt else
  save_current_file ;;
  if negb (validate (template_snapshot self) snapshot_path) then
    raise (TankError (snapshot_path +:+ " is not a valid snapshot path!"))
  else
    fields ← lift (get_fields (template_snapshot self) snapshot_path);
    work_path ← lift (apply_fields (template_work self) fields);
    ex ← exists_ work_path;
    (if ex : bool then do_snapshot work_path None (restore_comment snapshot_path)
     else mret tt) ;;
    log_debug ("Snapshot Restore: Copying " +:+ work_path +:+ " --> " +:+ snapshot_path) ;;
    copy_file snapshot_path work_path ;;
    log_debug ("Snapshot Restore: Opening " +:+ work_path) ;;
    open_file work_path.

(** The body of the loop of [find_snapshot_history]: the entry of one
    file, given the comments that were loaded. *)
Definition snapshot_details (comments : ydoc) (file : string)
    : res (gmap string pyval) :=
  comment ← match comments with
            | YMap m => inr (default "" (m !! os_path.basename file))
            | YOther => inl AttributeError   (* no method get *)
            end;
  let details : gmap string pyval :=
    <["thumbnail_path" := PStr (_get_thumbnail_file_path file)]>
      (<["comment" := PStr comment]> (<["file" := PStr file]> ∅)) in
  fields ← get_fields (template_snapshot self) file;
  let details :=
    foldl (fun (d : gmap string pyval) key_name =>
             match fields !! key_name with
             | Some v => <[key_name := v]> d
             | None => d
             end) details ["version"; "increment"] in
  match fields !! "timestamp" with
  | Some timestamp =>
      if truthy timestamp then
        match timestamp with
        | PStr ts =>
            dt ← Timestamp.strptime ts;
            mret (<["datetime" := PDatetime dt]> details)
        | _ => inl TypeError       (* strptime wants a string *)
        end
      else mret details
  | None => mret details
  end.

Definition history_of_fields (fields : fields)
    : M (list (gmap string pyval)) :=
  fs ← get_files;
  files ← lift (paths_from_template self (template_snapshot self) fields
                  ["version"; "timestamp"; "increment"] fs);
  match files with
  | [] => mret []
  | file0 :: _ =>
      comments ← _get_snapshot_comments file0;
      lift (mapM (snapshot_details comments) files)
  end.

Definition find_snapshot_history (file_path : string)
    : M (list (gmap string pyval)) :=
  if negb (str_truthy file_path) then mret []
  else if validate (template_work self) file_path then
    fields ← lift (get_fields (template_work self) file_path);
    history_of_fields fields
  else if validate (template_snapshot self) file_path then
    fields ← lift (get_fields (template_snapshot self) file_path);
    history_of_fields fields
  else mret [].

End Snapshot.

(** ** A concrete deployment

    Work files are [/proj/work/<name>.v<version>.ma], snapshots are
    [/proj/work/snapshots/<name>.v<version>.<timestamp>.ma]; the hooks
    copy and save on the modelled disk; the comment files are written in
    block style, one [key: value] per line.  The general statements below
    quantify over every [app]; this one is where they are run. *)

Module Demo.

Fixpoint strip_prefix (pre s : string) : option string :=
  match pre, s with
  | EmptyString, _ => Some s
  | String a pre', String b s' => if Ascii.eqb a b then strip_prefix pre' s' else None
  | String _ _, EmptyString => None
  end.

Fixpoint has_char (c : ascii) (s : string) : bool :=
  match s with
  | EmptyString => false
  | String x rest => Ascii.eqb x c || has_char c rest
  end.

Definition good_name (s : string) : bool := str_truthy s && negb (has_char "/" s).

Definition version_of (s : string) : option Z :=
  match s with
  | String "v" digits => Timestamp.number 3 3 digits
  | _ => None
  end.

Definition mismatch (p : string) : exn :=
  TankError ("Template does not match path " +:+ p).

Definition work_get_fields (p : string) : res fields :=
  match strip_prefix "/proj/work/" p with
  | Some rest =>
      match Timestamp.split_on "." rest with
      | [name; ver; "ma"] =>
          match good_name name, version_of ver with
          | true, Some v => inr (<["name" := PStr name]> (<["version" := PInt v]> ∅))
          | _, _ => inl (mismatch p)
          end
      | _ => inl (mismatch p)
      end
  | None => inl (mismatch p)
  end.

Definition snapshot_get_fields (p : string) : res fields :=
  match strip_prefix "/proj/work/snapshots/" p with
  | Some rest =>
      match Timestamp.split_on "." rest with
      | [name; ver; ts; "ma"] =>
          match good_name name, version_of ver with
          | true, Some v =>
              inr (<["name" := PStr name]>
                     (<["version" := PInt v]> (<["timestamp" := PStr ts]> ∅)))
          | _, _ => inl (mismatch p)
          end
      | _ => inl (mismatch p)
      end
  | None => inl (mismatch p)
  end.

Definition missing (k : string) : exn :=
  TankError ("Missing or unusable value for key " +:+ k).

Definition work_apply_fields (f : fields) : res string :=
  match f !! "name", f !! "version" with
  | Some (PStr name), Some (PInt v) =>
      inr ("/proj/work/" +:+ name +:+ ".v" +:+ Timestamp.zpad 3 v +:+ ".ma")
  | Some (PStr _), _ => inl (missing "version")
  | _, _ => inl (missing "name")
  end.

Definition snapshot_apply_fields (f : fields) : res string :=
  match f !! "name", f !! "version", f !! "timestamp" with
  | Some (PStr name), Some (PInt v), Some (PStr ts) =>
      inr ("/proj/work/snapshots/" +:+ name +:+ ".v" +:+ Timestamp.zpad 3 v
           +:+ "." +:+ ts +:+ ".ma")
  | Some (PStr _), Some (PInt _), _ => inl (missing "timestamp")
  | Some (PStr _), _, _ => inl (missing "version")
  | _, _, _ => inl (missing "name")
  end.

Definition is_ok {A} (r : res A) : bool := if r is inr _ then true else false.

Definition work : template :=
  Template (fun p => is_ok (work_get_fields p)) work_get_fields work_apply_fields
           ["name"; "version"].

Definition snapshot : template :=
  Template (fun p => is_ok (snapshot_get_fields p)) snapshot_get_fields
           snapshot_apply_fields ["name"; "version"; "timestamp"].

(** The same snapshot template with an [increment] key declared. *)
Definition snapshot_inc : template :=
  Template (validate snapshot) (get_fields snapshot) (apply_fields snapshot)
           ["name"; "version"; "timestamp"; "increment"].

Definition pyval_eqb (a b : pyval) : bool :=
  match a, b with
  | PNone, PNone => true
  | PInt x, PInt y => x =? y
  | PStr x, PStr y => String.eqb x y
  | _, _ => false
  end.

(** Every path on disk that the template takes and whose fields agree
    with [f] on the keys that are not skipped. *)
Definition list_paths (t : template) (f : fields) (skip : list string)
    (fs : gmap string string) : res (list string) :=
  inr (filter
         (fun p =>
            match get_fields t p with
            | inr g =>
                forallb (fun k => bool_decide (k ∈ skip)
                                  || match f !! k, g !! k with
                                     | Some a, Some b => pyval_eqb a b
                                     | None, _ => true
                                     | Some _, None => false
                                     end) (keys t)
            | inl _ => false
            end = true)
         (map fst (map_to_list fs))).

Definition save_or_open (operation file_path : string) (fs : gmap string string)
    : res pyval * gmap string string := (inr PNone, fs).

Definition copy (source target : string) (fs : gmap string string)
    : res pyval * gmap string string :=
  match fs !! source with
  | Some c => (inr PNone, <[target := c]> fs)
  | None => (inl (HookError ("cannot copy " +:+ source)), fs)
  end.

(** A copy hook that returns without having written anything. *)
Definition idle_copy (source target : string) (fs : gmap string string)
    : res pyval * gmap string string := (inr PNone, fs).

(** Block-style mappings of plain scalars. *)
Fixpoint cut_colon (s : string) : option (string * string) :=
  match s with
  | EmptyString => None
  | String ":" (String " " rest) => Some (EmptyString, rest)
  | String c rest =>
      match cut_colon rest with
      | Some (k, v) => Some (String c k, v)
      | None => None
      end
  end.

Fixpoint load_lines (ls : list string) : res (gmap string string) :=
  match ls with
  | [] => inr ∅
  | EmptyString :: ls' => load_lines ls'
  | l :: ls' =>
      match cut_colon l with
      | Some (k, v) => m ← load_lines ls'; mret (<[k := v]> m)
      | None => inl YAMLError
      end
  end.

Definition load (s : string) : res ydoc :=
  if String.eqb s "" then inr YOther     (* the empty document loads None *)
  else m ← load_lines (Timestamp.split_on "010" s); mret (YMap m).

Definition dump (m : gmap string string) : string :=
  foldr (fun kv acc => kv.1 +:+ ": " +:+ kv.2 +:+ String "010" acc) ""
        (map_to_list m).

Definition the_app (snap : template)
    (cp : string → string → gmap string string → res pyval * gmap string string)
    : app :=
  App work snap save_or_open cp list_paths load dump (fun _ => "/tmp/tanktmp0.png").

Definition noon : datetime := Datetime 2024 1 1 12 0 0 0.

Definition work_file : string := "/proj/work/shot010.v003.ma".
Definition old_snapshot : string :=
  "/proj/work/snapshots/shot010.v003.2023-12-31-09-30-00.ma".

Definition disk : gmap string string :=
  <[work_file := "scene, edited"]> (<[old_snapshot := "scene, as it was"]> ∅).

Definition w0 : world := World disk noon [].

Definition comments_file : string :=
  "/proj/work/snapshots/shot010.v000.tank_comments.yml".

(** The same disk with a comment file that does not parse. *)
Definition w_broken : world := World (<[comments_file := "{"]> disk) noon [].



End Demo.

(** ** The worlds a call passes through *)

(** The world once [evs] have been recorded and the files are [fs]. *)
Definition moved (w : world) (evs : list event) (fs : gmap string string) : world :=
  World fs (clock w) (trace w ++ evs).

Definition logged (w : world) (evs : list event) : world := moved w evs (files w).

Definition save_event : event := EvExecuteHook "hook_scene_operation" ["save"; ""].
Definition copy_event (source target : string) : event :=
  EvExecuteHook "hook_copy_file" [source; target].

(** After the scene has been saved. *)
Definition saved (self : app) (w : world) : world :=
  moved w [save_event] (hook_scene_operation self "save" "" (files w)).2.

Definition save_returns (self : app) (w : world) : Prop :=
  ∃ v, (hook_scene_operation self "save" "" (files w)).1 = inr v.

(** After [source] has been copied to [target]. *)
Definition copied (self : app) (source target : string) (w : world) : world :=
  moved w [copy_event source target] (hook_copy_file self source target (files w)).2.

Definition copy_returns (self : app) (source target : string) (w : world) : Prop :=
  ∃ v, (hook_copy_file self source target (files w)).1 = inr v.

Definition on_disk (w : world) (path : string) : Prop := is_Some (files w !! path).

(** Whether the character [c] occurs in [s]. *)
Fixpoint occurs (c : ascii) (s : string) : bool :=
  match s with
  | EmptyString => false
  | String x rest => Ascii.eqb x c || occurs c rest
  end.

(** The clock shows a date that [datetime] accepts, in a year that
    [strftime] formats. *)
Definition clock_valid (t : datetime) : Prop :=
  1900 <= year t
  ∧ Timestamp.make_datetime (year t) (month t) (day t) (hour t) (minute t)
      (second t) (microsecond t)
    = inr t.

(** A clock reading cut to whole seconds. *)
Definition whole_seconds (t : datetime) : datetime :=
  Datetime (year t) (month t) (day t) (hour t) (minute t) (second t) 0.

(** A clock reading with microseconds. *)
Definition half_past_noon : datetime := Datetime 2024 1 1 12 30 0 250000.

(** The directive [dir] reads [z] back from its zero-padded print, which
    has no dash in it. *)
Definition reads_back (dir : string → option Z) (width : nat) (z : Z) : bool :=
  match dir (Timestamp.zpad width z) with
  | Some v => v =? z
  | None => false
  end && negb (occurs "-" (Timestamp.zpad width z)).

Definition open_event (path : string) : event :=
  EvExecuteHook "hook_scene_operation" ["open"; path].

(** After [path] has been opened as the scene. *)
Definition opened (self : app) (path : string) (w : world) : world :=
  moved w [open_event path] (hook_scene_operation self "open" path (files w)).2.

(** The hook wrappers drop what the hook returns. *)
Definition returns_none (r : res pyval) : res unit :=
  match r with inl e => inl e | inr _ => inr tt end.

(** Deployments with other hooks: a scene that cannot be saved, and a
    deployment given its scene and copy hooks. *)
Definition refusing_save (operation file_path : string) (fs : gmap string string)
    : res pyval * gmap string string :=
  if String.eqb operation "save"
  then (inl (HookError "the scene is read-only"), fs)
  else (inr PNone, fs).

Definition app_with_hooks
    (scene cp : string → string → gmap string string → res pyval * gmap string string)
    : app :=
  App Demo.work Demo.snapshot scene cp Demo.list_paths Demo.load Demo.dump
      (fun _ => "/tmp/tanktmp0.png").

(** A snapshot template that wants a number for its [increment] key. *)
Definition snapshot_counted : template :=
  Template (validate Demo.snapshot) (get_fields Demo.snapshot)
           (fun f => match f !! "increment" with
                     | Some (PInt _) => apply_fields Demo.snapshot f
                     | _ => inl (Demo.missing "increment")
                     end)
           ["name"; "version"; "timestamp"; "increment"].

(** A copy hook that cannot write. *)
Definition refusing_copy (source target : string) (fs : gmap string string)
    : res pyval * gmap string string :=
  (inl (HookError ("cannot write " +:+ target)), fs).

(** A snapshot template that builds paths but takes none. *)
Definition snapshot_blind : template :=
  Template (fun _ => false) (get_fields Demo.snapshot) (apply_fields Demo.snapshot)
           ["name"; "version"; "timestamp"].




(** * Properties *)

(** ** The helpers on concrete inputs *)

Example basename_ex :
  os_path.basename "/proj/snapshots/shot010.v003.ma" = "shot010.v003.ma".
Proof. reflexivity. Qed.

Example dirname_ex :
  os_path.dirname "/proj/snapshots/shot010.v003.ma" = "/proj/snapshots".
Proof. reflexivity. Qed.

Example splitext_ex :
  os_path.splitext "/proj/snap.d/shot010.v003.ma" = ("/proj/snap.d/shot010.v003", ".ma").
Proof. reflexivity. Qed.

Example splitext_hidden : os_path.splitext "/proj/.hidden" = ("/proj/.hidden", "").
Proof. reflexivity. Qed.

Example strptime_ex :
  Timestamp.strptime "2024-01-01-12-00-00" = inr (Datetime 2024 1 1 12 0 0 0).
Proof. reflexivity. Qed.

Example strptime_bad_day : Timestamp.strptime "2023-02-29-12-00-00" = inl ValueError.
Proof. reflexivity. Qed.

Example strptime_bad_text : Timestamp.strptime "yesterday" = inl ValueError.
Proof. reflexivity. Qed.

Example strftime_ex :
  Timestamp.strftime (Datetime 2024 1 1 12 0 0 0) = "2024-01-01-12-00-00".
Proof. reflexivity. Qed.

Example demo_do_snapshot :
  files (do_snapshot (Demo.the_app Demo.snapshot Demo.copy) Demo.work_file None "wip" Demo.w0).2
  !! "/proj/work/snapshots/shot010.v003.2024-01-01-12-00-00.ma" = Some "scene, edited".
Proof. vm_compute. reflexivity. Qed.

(** ** Running the monad *)

Lemma bind_run {A B} (m : M A) (f : A → M B) (w : world) :
  (m ≫= f) w = match m w with
               | (inl e, w') => (inl e, w')
               | (inr x, w') => f x w'
               end.
Proof. reflexivity. Qed.

Lemma bind_returns {A B} (m : M A) (f : A → M B) (w w' : world) (x : A) :
  m w = (inr x, w') → (m ≫= f) w = f x w'.
Proof. intros H. rewrite bind_run, H. reflexivity. Qed.

Lemma bind_raises {A B} (m : M A) (f : A → M B) (w w' : world) (e : exn) :
  m w = (inl e, w') → (m ≫= f) w = (inl e, w').
Proof. intros H. rewrite bind_run, H. reflexivity. Qed.

Lemma moved_moved w evs evs' fs fs' :
  moved (moved w evs fs) evs' fs' = moved w (evs ++ evs') fs'.
Proof. unfold moved. simpl. by rewrite <- app_assoc. Qed.

Lemma execute_hook_run name args h w :
  execute_hook name args h w = ((h (files w)).1, moved w [EvExecuteHook name args] (h (files w)).2).
Proof. reflexivity. Qed.

Lemma save_current_file_run self w :
  save_current_file self w =
  (match (hook_scene_operation self "save" "" (files w)).1 with
   | inl e => inl e
   | inr _ => inr tt
   end, saved self w).
Proof.
  unfold save_current_file. rewrite bind_run, execute_hook_run.
  by destruct (hook_scene_operation self "save" "" (files w)).1.
Qed.

Lemma save_current_file_returns self w :
  save_returns self w → save_current_file self w = (inr tt, saved self w).
Proof. intros [v Hv]. by rewrite save_current_file_run, Hv. Qed.

Lemma copy_file_run self source target w :
  copy_file self source target w =
  (match (hook_copy_file self source target (files w)).1 with
   | inl e => inl e
   | inr _ => inr tt
   end, copied self source target w).
Proof.
  unfold copy_file. rewrite bind_run, execute_hook_run.
  by destruct (hook_copy_file self source target (files w)).1.
Qed.

Lemma exists_run path w :
  exists_ path w = (inr (bool_decide (on_disk w path)), w).
Proof. reflexivity. Qed.

(** ** Creating a snapshot *)

Lemma do_snapshot_save_raises self work_path thumbnail comment w e :
  (hook_scene_operation self "save" "" (files w)).1 = inl e →
  do_snapshot self work_path thumbnail comment w = (inl e, saved self w).
Proof.
  intros Hh. unfold do_snapshot. apply bind_raises.
  by rewrite save_current_file_run, Hh.
Qed.

Lemma do_snapshot_missing self work_path thumbnail comment w :
  save_returns self w → ¬ on_disk (saved self w) work_path →
  do_snapshot self work_path thumbnail comment w
  = (inl (TankError ("Snapshot: Work file " +:+ work_path
                     +:+ " could not be found on disk!")), saved self w).
Proof.
  intros Hs Hno. unfold do_snapshot.
  rewrite (bind_returns _ _ _ _ _ (save_current_file_returns _ _ Hs)).
  rewrite bind_run, exists_run. by rewrite bool_decide_false.
Qed.

Lemma do_snapshot_non_work self work_path thumbnail comment w :
  save_returns self w → on_disk (saved self w) work_path →
  validate (template_work self) work_path = false →
  do_snapshot self work_path thumbnail comment w
  = (inl (TankError ("Unable to snapshot non-work file " +:+ work_path)),
     saved self w).
Proof.
  intros Hs Hyes Hv. unfold do_snapshot.
  rewrite (bind_returns _ _ _ _ _ (save_current_file_returns _ _ Hs)).
  rewrite bind_run, exists_run. rewrite bool_decide_true by done.
  simpl. by rewrite Hv.
Qed.

(** C7: once the scene is saved, a work path that is not on disk makes
    [do_snapshot] raise the "could not be found on disk" error, and one
    that is on disk but is not taken by the work template makes it raise
    the "non-work file" error; in both cases, whatever the save hook did,
    the call raises and stops in the world the save left: the copy hook is
    not run and no file is written. *)
Theorem do_snapshot_rejects_work_path
    (self : app) (w : world) (work_path : string)
    (thumbnail : option pixmap) (comment : string) :
  ¬ on_disk (saved self w) work_path
  ∨ validate (template_work self) work_path = false →
  (∃ e, do_snapshot self work_path thumbnail comment w = (inl e, saved self w))
  ∧ trace (saved self w) = (trace w ++ [save_event])%list
  ∧ (save_returns self w → ¬ on_disk (saved self w) work_path →
     do_snapshot self work_path thumbnail comment w
     = (inl (TankError ("Snapshot: Work file " +:+ work_path
                        +:+ " could not be found on disk!")), saved self w))
  ∧ (save_returns self w → on_disk (saved self w) work_path →
     validate (template_work self) work_path = false →
     do_snapshot self work_path thumbnail comment w
     = (inl (TankError ("Unable to snapshot non-work file " +:+ work_path)),
        saved self w)).
Proof.
  intros Hbad. split; [|split; [done|split]].
  - destruct (hook_scene_operation self "save" "" (files w)).1 as [e|v] eqn:Hh.
    { exists e. by apply do_snapshot_save_raises. }
    assert (Hs : save_returns self w) by (by exists v).
    destruct (decide (on_disk (saved self w) work_path)) as [Hyes|Hno].
    + destruct Hbad as [Hbad|Hbad]; [done|].
      eexists. by apply do_snapshot_non_work.
    + eexists. by apply do_snapshot_missing.
  - apply do_snapshot_missing.
  - apply do_snapshot_non_work.
Qed.

Lemma do_snapshot_rejects_work_path_witness :
  let self := Demo.the_app Demo.snapshot Demo.copy in
  let work_path := "/proj/work/shot020.v001.ma" in
  (∃ e, do_snapshot self work_path None "wip" Demo.w0 = (inl e, saved self Demo.w0))
  ∧ trace (saved self Demo.w0) = (trace Demo.w0 ++ [save_event])%list
  ∧ (save_returns self Demo.w0 → ¬ on_disk (saved self Demo.w0) work_path →
     do_snapshot self work_path None "wip" Demo.w0
     = (inl (TankError ("Snapshot: Work file " +:+ work_path
                        +:+ " could not be found on disk!")), saved self Demo.w0))
  ∧ (save_returns self Demo.w0 → on_disk (saved self Demo.w0) work_path →
     validate (template_work self) work_path = false →
     do_snapshot self work_path None "wip" Demo.w0
     = (inl (TankError ("Unable to snapshot non-work file " +:+ work_path)),
        saved self Demo.w0)).
Proof.
  apply (do_snapshot_rejects_work_path
           (Demo.the_app Demo.snapshot Demo.copy) Demo.w0
           "/proj/work/shot020.v001.ma" None "wip").
  left. intros [c Hc]. vm_compute in Hc. discriminate Hc.
Defined.

(** [do_snapshot] up to the copy: with the scene saved, the work file on
    disk and taken by the work template, and the snapshot path derived,
    the copy hook is run and then the snapshot path is looked for. *)
Lemma do_snapshot_run self work_path thumbnail comment w f snapshot_path :
  save_returns self w →
  on_disk (saved self w) work_path →
  validate (template_work self) work_path = true →
  get_fields (template_work self) work_path = inr f →
  apply_fields (template_snapshot self) (snapshot_fields self (clock w) f)
  = inr snapshot_path →
  let w2 := logged (saved self w)
              [EvLogDebug ("Snapshot: Copying " +:+ work_path +:+ " --> "
                           +:+ snapshot_path)] in
  let w3 := copied self work_path snapshot_path w2 in
  do_snapshot self work_path thumbnail comment w
  = match (hook_copy_file self work_path snapshot_path (files w2)).1 with
    | inl e => (inl e, w3)
    | inr _ =>
        if bool_decide (on_disk w3 snapshot_path) then
          ((if str_truthy comment
            then _add_snapshot_comment self snapshot_path comment
            else mret tt) ;;
           (if thumbnail is Some _
            then _add_snapshot_thumbnail self snapshot_path thumbnail
            else mret tt)) w3
        else
          (inl (TankError ("Snapshot: Failed to copy work file from '"
                           +:+ work_path +:+ "' to '" +:+ snapshot_path +:+ "'")),
           w3)
    end.
Proof.
  intros Hs Hyes Hv Hf Ha w2 w3. unfold do_snapshot.
  rewrite (bind_returns _ _ _ _ _ (save_current_file_returns _ _ Hs)).
  rewrite bind_run, exists_run. rewrite bool_decide_true by done.
  cbn [negb]. rewrite Hv. cbn [negb].
  rewrite Hf. rewrite (bind_returns _ _ (saved self w) (saved self w) f) by done.
  rewrite (bind_returns _ _ (saved self w) (saved self w) (clock w)) by done.
  rewrite Ha.
  rewrite (bind_returns _ _ (saved self w) (saved self w) snapshot_path) by done.
  rewrite (bind_returns _ _ (saved self w) w2 tt) by done.
  rewrite bind_run, copy_file_run. fold w3.
  destruct (hook_copy_file self work_path snapshot_path (files w2)).1; [done|].
  rewrite bind_run, exists_run.
  by case_bool_decide.
Qed.

(** C5: after the copy hook has been run and has returned, [do_snapshot]
    looks for the snapshot path on disk itself, and raises the "Failed to
    copy work file" error when it is not there. *)
Theorem do_snapshot_verifies_copy
    (self : app) (w : world) (work_path : string) (thumbnail : option pixmap)
    (comment : string) (f : fields) (snapshot_path : string) :
  save_returns self w →
  on_disk (saved self w) work_path →
  validate (template_work self) work_path = true →
  get_fields (template_work self) work_path = inr f →
  apply_fields (template_snapshot self) (snapshot_fields self (clock w) f)
  = inr snapshot_path →
  let w2 := logged (saved self w)
              [EvLogDebug ("Snapshot: Copying " +:+ work_path +:+ " --> "
                           +:+ snapshot_path)] in
  let w3 := copied self work_path snapshot_path w2 in
  copy_returns self work_path snapshot_path w2 →
  ¬ on_disk w3 snapshot_path →
  do_snapshot self work_path thumbnail comment w
  = (inl (TankError ("Snapshot: Failed to copy work file from '"
                     +:+ work_path +:+ "' to '" +:+ snapshot_path +:+ "'")), w3)
  ∧ trace w3 = (trace w ++ [save_event;
                            EvLogDebug ("Snapshot: Copying " +:+ work_path
                                        +:+ " --> " +:+ snapshot_path);
                            copy_event work_path snapshot_path])%list.
Proof.
  intros Hs Hyes Hv Hf Ha w2 w3 [v Hc] Hno. split.
  - rewrite (do_snapshot_run _ _ _ _ _ _ _ Hs Hyes Hv Hf Ha).
    fold w2 w3. rewrite Hc. by rewrite bool_decide_false.
  - unfold w3, w2, copied, logged, saved, moved. simpl.
    by rewrite <- !app_assoc.
Qed.

Lemma do_snapshot_verifies_copy_witness :
  let self := Demo.the_app Demo.snapshot Demo.idle_copy in
  let snapshot_path :=
    "/proj/work/snapshots/shot010.v003.2024-01-01-12-00-00.ma" in
  let w2 := logged (saved self Demo.w0)
              [EvLogDebug ("Snapshot: Copying " +:+ Demo.work_file +:+ " --> "
                           +:+ snapshot_path)] in
  let w3 := copied self Demo.work_file snapshot_path w2 in
  do_snapshot self Demo.work_file None "wip" Demo.w0
  = (inl (TankError ("Snapshot: Failed to copy work file from '"
                     +:+ Demo.work_file +:+ "' to '" +:+ snapshot_path +:+ "'")), w3)
  ∧ trace w3 = (trace Demo.w0
                ++ [save_event;
                    EvLogDebug ("Snapshot: Copying " +:+ Demo.work_file
                                +:+ " --> " +:+ snapshot_path);
                    copy_event Demo.work_file snapshot_path])%list.
Proof.
  apply (do_snapshot_verifies_copy
           (Demo.the_app Demo.snapshot Demo.idle_copy) Demo.w0 Demo.work_file
           None "wip"
           (<["name" := PStr "shot010"]> (<["version" := PInt 3]> ∅))).
  - by exists PNone.
  - by exists "scene, edited".
  - reflexivity.
  - reflexivity.
  - vm_compute. reflexivity.
  - by exists PNone.
  - intros [c Hc]. vm_compute in Hc. discriminate Hc.
Defined.

(** ** Restoring a snapshot *)

Lemma str_truthy_true (s : string) : s ≠ "" → str_truthy s = true.
Proof.
  intros Hs. unfold str_truthy. apply negb_true_iff. by apply String.eqb_neq.
Qed.

(** C1: when the work path derived from the snapshot path is on disk,
    [restore_snapshot] first runs the whole of [do_snapshot] on that work
    path, with no thumbnail and the comment "Automatic snapshot before
    restoring older snapshot '<name>'".  If that call raises, its
    exception is the outcome of the restore and the restore stops in the
    world the call left: nothing is copied over the work file.  If it
    returns, the copy of the snapshot over the work file and the opening
    of the work file follow. *)
Theorem restore_snapshot_backs_up_first
    (self : app) (w : world) (snapshot_path : string) (f : fields)
    (work_path : string) :
  snapshot_path ≠ "" →
  save_returns self w →
  validate (template_snapshot self) snapshot_path = true →
  get_fields (template_snapshot self) snapshot_path = inr f →
  apply_fields (template_work self) f = inr work_path →
  on_disk (saved self w) work_path →
  let comment := "Automatic snapshot before restoring older snapshot '"
                 +:+ os_path.basename snapshot_path +:+ "'" in
  let backup := do_snapshot self work_path None comment (saved self w) in
  (∀ e, backup.1 = inl e →
        restore_snapshot self snapshot_path w = (inl e, backup.2))
  ∧ (backup.1 = inr tt →
     restore_snapshot self snapshot_path w
     = (log_debug ("Snapshot Restore: Copying " +:+ work_path +:+ " --> "
                   +:+ snapshot_path) ;;
        copy_file self snapshot_path work_path ;;
        log_debug ("Snapshot Restore: Opening " +:+ work_path) ;;
        open_file self work_path) backup.2).
Proof.
  intros Hne Hs Hv Hf Ha Hyes comment backup.
  assert (Hrun : restore_snapshot self snapshot_path w
                 = match backup with
                   | (inl e, w1) => (inl e, w1)
                   | (inr _, w1) =>
                       (log_debug ("Snapshot Restore: Copying " +:+ work_path
                                   +:+ " --> " +:+ snapshot_path) ;;
                        copy_file self snapshot_path work_path ;;
                        log_debug ("Snapshot Restore: Opening " +:+ work_path) ;;
                        open_file self work_path) w1
                   end).
  { unfold restore_snapshot. rewrite (str_truthy_true _ Hne). cbn [negb].
    rewrite (bind_returns _ _ _ _ _ (save_current_file_returns _ _ Hs)).
    rewrite Hv. cbn [negb]. rewrite Hf.
    rewrite (bind_returns _ _ (saved self w) (saved self w) f) by done.
    rewrite Ha.
    rewrite (bind_returns _ _ (saved self w) (saved self w) work_path) by done.
    rewrite bind_run, exists_run. rewrite bool_decide_true by done.
    rewrite bind_run. reflexivity. }
  rewrite Hrun. destruct backup as [[e|[]] w1]; simpl; split; congruence.
Qed.

Lemma restore_snapshot_backs_up_first_witness :
  let self := Demo.the_app Demo.snapshot Demo.idle_copy in
  let comment := "Automatic snapshot before restoring older snapshot '"
                 +:+ os_path.basename Demo.old_snapshot +:+ "'" in
  let backup := do_snapshot self Demo.work_file None comment (saved self Demo.w0) in
  backup.1 = inl (TankError ("Snapshot: Failed to copy work file from '"
                             +:+ Demo.work_file
                             +:+ "' to '/proj/work/snapshots/shot010.v003.2024-01-01-12-00-00.ma'"))
  ∧ restore_snapshot self Demo.old_snapshot Demo.w0 = (backup.1, backup.2)
  ∧ files backup.2 !! Demo.work_file = Some "scene, edited".
Proof.
  pose proof (restore_snapshot_backs_up_first
                (Demo.the_app Demo.snapshot Demo.idle_copy) Demo.w0
                Demo.old_snapshot
                (<["name" := PStr "shot010"]>
                   (<["version" := PInt 3]>
                      (<["timestamp" := PStr "2023-12-31-09-30-00"]> ∅)))
                Demo.work_file) as H.
  cbv zeta in H.
  destruct H as [Hraise _].
  - discriminate.
  - by exists PNone.
  - reflexivity.
  - reflexivity.
  - vm_compute. reflexivity.
  - by exists "scene, edited".
  - intros self comment backup.
    assert (Hb : backup.1
                 = inl (TankError ("Snapshot: Failed to copy work file from '"
                          +:+ Demo.work_file
                          +:+ "' to '/proj/work/snapshots/shot010.v003.2024-01-01-12-00-00.ma'")))
      by (vm_compute; reflexivity).
    split; [exact Hb|]. split.
    + rewrite Hb. apply Hraise. exact Hb.
    + vm_compute. reflexivity.
Defined.

(** ** Comments *)

Lemma warn_invalid_path_run self snapshot_file_path comment w :
  validate (template_snapshot self) snapshot_file_path = false →
  _add_snapshot_comment self snapshot_file_path comment w
  = (inr tt,
     logged w [EvLogWarning ("Could not add comment to invalid snapshot path "
                             +:+ snapshot_file_path +:+ "!")]).
Proof. intros Hv. unfold _add_snapshot_comment. by rewrite Hv. Qed.

(** C10: for a path the snapshot template does not take,
    [_add_snapshot_comment] logs the warning and returns; the files are
    the ones it found, and nothing was opened. *)
Theorem add_snapshot_comment_invalid_path
    (self : app) (w : world) (snapshot_file_path comment : string) :
  validate (template_snapshot self) snapshot_file_path = false →
  _add_snapshot_comment self snapshot_file_path comment w
  = (inr tt,
     logged w [EvLogWarning ("Could not add comment to invalid snapshot path "
                             +:+ snapshot_file_path +:+ "!")]).
Proof. apply warn_invalid_path_run. Qed.

Lemma add_snapshot_comment_invalid_path_witness :
  let self := Demo.the_app Demo.snapshot Demo.copy in
  _add_snapshot_comment self Demo.work_file "wip" Demo.w0
  = (inr tt,
     logged Demo.w0
       [EvLogWarning ("Could not add comment to invalid snapshot path "
                      +:+ Demo.work_file +:+ "!")]).
Proof.
  apply (add_snapshot_comment_invalid_path
           (Demo.the_app Demo.snapshot Demo.copy) Demo.w0 Demo.work_file "wip").
  reflexivity.
Defined.

(** ** History *)

(** C6: for a path that neither template takes, [find_snapshot_history]
    returns the empty list; and when the listing of the snapshot paths is
    empty it returns the empty list at once.  In both cases the world is
    the one it found: no file was opened, so no comment file was loaded. *)
Theorem find_snapshot_history_empty
    (self : app) (w : world) (file_path : string) :
  (validate (template_work self) file_path = false →
   validate (template_snapshot self) file_path = false →
   find_snapshot_history self file_path w = (inr [], w))
  ∧ (∀ f : fields,
       validate (template_work self) file_path = true →
       get_fields (template_work self) file_path = inr f →
       paths_from_template self (template_snapshot self) f
         ["version"; "timestamp"; "increment"] (files w) = inr [] →
       find_snapshot_history self file_path w = (inr [], w))
  ∧ (∀ f : fields,
       validate (template_work self) file_path = false →
       validate (template_snapshot self) file_path = true →
       get_fields (template_snapshot self) file_path = inr f →
       paths_from_template self (template_snapshot self) f
         ["version"; "timestamp"; "increment"] (files w) = inr [] →
       find_snapshot_history self file_path w = (inr [], w)).
Proof.
  assert (Hh : ∀ f : fields,
             paths_from_template self (template_snapshot self) f
               ["version"; "timestamp"; "increment"] (files w) = inr [] →
             history_of_fields self f w = (inr [], w)).
  { intros f Hl. unfold history_of_fields.
    rewrite (bind_returns _ _ w w (files w)) by done.
    rewrite Hl. by rewrite (bind_returns _ _ w w []). }
  unfold find_snapshot_history.
  destruct (str_truthy file_path); cbn [negb]; [|by repeat split].
  split; [|split].
  - intros Hw Hs. by rewrite Hw, Hs.
  - intros f Hw Hf Hl. rewrite Hw, Hf.
    rewrite (bind_returns _ _ w w f) by done. by apply Hh.
  - intros f Hw Hs Hf Hl. rewrite Hw, Hs, Hf.
    rewrite (bind_returns _ _ w w f) by done. by apply Hh.
Qed.

Lemma find_snapshot_history_empty_witness :
  let self := Demo.the_app Demo.snapshot Demo.copy in
  find_snapshot_history self "/not/a/template/path" Demo.w0 = (inr [], Demo.w0)
  ∧ find_snapshot_history self "/proj/work/shot020.v001.ma" Demo.w0
    = (inr [], Demo.w0).
Proof.
  split.
  - apply (proj1 (find_snapshot_history_empty
                    (Demo.the_app Demo.snapshot Demo.copy) Demo.w0
                    "/not/a/template/path")); reflexivity.
  - apply (proj1 (proj2 (find_snapshot_history_empty
                           (Demo.the_app Demo.snapshot Demo.copy) Demo.w0
                           "/proj/work/shot020.v001.ma"))
             (<["name" := PStr "shot020"]> (<["version" := PInt 1]> ∅))).
    + reflexivity.
    + reflexivity.
    + vm_compute. reflexivity.
Defined.

(** ** The comment file of a snapshot *)




(** ** Reading and writing the comment file *)

Lemma load_comments_run self store w :
  load_comments self store w
  = match files w !! store with
    | Some content => (yaml_load self content, logged w [EvOpen store "r"])
    | None => (inr (YMap ∅), w)
    end.
Proof.
  unfold load_comments. rewrite bind_run, exists_run.
  destruct (decide (on_disk w store)) as [[content Hl]|Hno].
  - rewrite bool_decide_true by (by exists content). rewrite Hl.
    unfold read_file. rewrite bind_run.
    rewrite (bind_returns _ _ _ (logged w [EvOpen store "r"]) tt) by done.
    rewrite (bind_returns _ _ _ (logged w [EvOpen store "r"]) (files w)) by done.
    simpl. rewrite Hl. simpl.
    by destruct (yaml_load self content).
  - rewrite bool_decide_false by done.
    by rewrite (proj2 (eq_None_not_Some _) Hno).
Qed.

Lemma write_file_run path content w :
  write_file path content w
  = (inr tt, moved w [EvOpen path "w"] (<[path := content]> (files w))).
Proof. reflexivity. Qed.

Lemma add_snapshot_comment_run self snapshot_file_path comment w store :
  validate (template_snapshot self) snapshot_file_path = true →
  _get_comments_file_path self snapshot_file_path = inr store →
  _add_snapshot_comment self snapshot_file_path comment w
  = let w1 := logged w [EvLogDebug ("Snapshot: Adding comment to file " +:+ store)] in
    match load_comments self store w1 with
    | (inl e, w2) => (inl e, w2)
    | (inr (YMap m), w2) =>
        write_file store
          (yaml_dump self (<[os_path.basename snapshot_file_path := comment]> m)) w2
    | (inr YOther, w2) => (inl TypeError, w2)
    end.
Proof.
  intros Hv Hp. unfold _add_snapshot_comment. rewrite Hv, Hp. cbn [negb].
  rewrite (bind_returns _ _ w w store) by done.
  rewrite (bind_returns _ _ w
             (logged w [EvLogDebug ("Snapshot: Adding comment to file " +:+ store)])
             tt) by done.
  rewrite bind_run. cbv zeta.
  destruct (load_comments self store _) as [[e|[m|]] w2]; reflexivity.
Qed.

(** C8: adding the same comment for the same snapshot path a second time
    leaves every file as the first call left it, and ends as the first
    call ended, provided the YAML codec loads back the mapping that the
    first call dumps. *)
Theorem add_snapshot_comment_twice
    (self : app) (w : world) (snapshot_file_path comment : string) :
  (∀ store m,
     _get_comments_file_path self snapshot_file_path = inr store →
     (load_comments self store w).1 = inr (YMap m) →
     let m' := <[os_path.basename snapshot_file_path := comment]> m in
     yaml_load self (yaml_dump self m') = inr (YMap m')) →
  let first := _add_snapshot_comment self snapshot_file_path comment w in
  let second := _add_snapshot_comment self snapshot_file_path comment first.2 in
  files second.2 = files first.2 ∧ second.1 = first.1.
Proof.
  intros Hcodec first second. subst first second.
  destruct (validate (template_snapshot self) snapshot_file_path) eqn:Hv.
  2: { by rewrite !warn_invalid_path_run by done. }
  destruct (_get_comments_file_path self snapshot_file_path) as [e|store] eqn:Hp.
  { unfold _add_snapshot_comment. rewrite Hv, Hp. cbn [negb]. done. }
  specialize (Hcodec store).
  rewrite !(add_snapshot_comment_run _ _ _ _ _ Hv Hp). cbv zeta.
  rewrite !load_comments_run in *. simpl files.
  destruct (files w !! store) as [content|] eqn:Hl; simpl.
  - destruct (yaml_load self content) as [e|[m|]] eqn:Hy; simpl.
    + rewrite Hl, Hy. simpl. by split.
    + specialize (Hcodec m eq_refl eq_refl). simpl in Hcodec.
      rewrite lookup_insert_eq, Hcodec. simpl.
      by rewrite !insert_insert_eq.
    + rewrite Hl, Hy. simpl. by split.
  - specialize (Hcodec ∅ eq_refl eq_refl). simpl in Hcodec.
    rewrite lookup_insert_eq, Hcodec. simpl.
    by rewrite !insert_insert_eq.
Qed.

Lemma add_snapshot_comment_twice_witness :
  let self := Demo.the_app Demo.snapshot Demo.copy in
  let first := _add_snapshot_comment self Demo.old_snapshot "as delivered" Demo.w0 in
  let second := _add_snapshot_comment self Demo.old_snapshot "as delivered" first.2 in
  first.1 = inr tt
  ∧ is_Some (files first.2 !! Demo.comments_file)
  ∧ files second.2 = files first.2 ∧ second.1 = first.1.
Proof.
  split; [vm_compute; reflexivity|].
  split; [vm_compute; eexists; reflexivity|].
  apply (add_snapshot_comment_twice
           (Demo.the_app Demo.snapshot Demo.copy) Demo.w0
           Demo.old_snapshot "as delivered").
  intros store m Hs Hl.
  vm_compute in Hs. injection Hs as <-.
  vm_compute in Hl. injection Hl as <-.
  vm_compute. reflexivity.
Defined.

(** C3, as the code has it: a comment file that is not there reads as
    the empty mapping; one whose content the YAML codec rejects makes
    both readers, [_get_snapshot_comments] and [_add_snapshot_comment],
    raise the codec's exception.  Nothing is logged as a warning and no
    file is changed. *)
Theorem malformed_comments_propagate
    (self : app) (w : world) (snapshot_file_path comment store : string) :
  _get_comments_file_path self snapshot_file_path = inr store →
  (files w !! store = None →
   _get_snapshot_comments self snapshot_file_path w = (inr (YMap ∅), w))
  ∧ (∀ content e,
       files w !! store = Some content →
       yaml_load self content = inl e →
       _get_snapshot_comments self snapshot_file_path w
       = (inl e, logged w [EvOpen store "r"])
       ∧ (validate (template_snapshot self) snapshot_file_path = true →
          _add_snapshot_comment self snapshot_file_path comment w
          = (inl e,
             logged w [EvLogDebug ("Snapshot: Adding comment to file " +:+ store);
                       EvOpen store "r"]))).
Proof.
  intros Hp. split.
  - intros Hl. unfold _get_snapshot_comments. rewrite Hp.
    rewrite (bind_returns _ _ w w store) by done.
    by rewrite load_comments_run, Hl.
  - intros content e Hl Hy. split.
    + unfold _get_snapshot_comments. rewrite Hp.
      rewrite (bind_returns _ _ w w store) by done.
      by rewrite load_comments_run, Hl, Hy.
    + intros Hv. rewrite (add_snapshot_comment_run _ _ _ _ _ Hv Hp). cbv zeta.
      rewrite load_comments_run. simpl files. rewrite Hl, Hy.
      unfold logged. by rewrite moved_moved.
Qed.

Lemma malformed_comments_propagate_witness :
  let self := Demo.the_app Demo.snapshot Demo.copy in
  _get_snapshot_comments self Demo.old_snapshot Demo.w0 = (inr (YMap ∅), Demo.w0)
  ∧ _get_snapshot_comments self Demo.old_snapshot Demo.w_broken
    = (inl YAMLError, logged Demo.w_broken [EvOpen Demo.comments_file "r"]).
Proof.
  split.
  - apply (proj1 (malformed_comments_propagate
                    (Demo.the_app Demo.snapshot Demo.copy) Demo.w0
                    Demo.old_snapshot "" Demo.comments_file eq_refl)).
    reflexivity.
  - apply (proj2 (malformed_comments_propagate
                    (Demo.the_app Demo.snapshot Demo.copy) Demo.w_broken
                    Demo.old_snapshot "" Demo.comments_file eq_refl) "{" YAMLError).
    + reflexivity.
    + reflexivity.
Defined.

(** C3 as claimed fails: with a comment file holding ["{"], reading the
    comments raises instead of giving the empty mapping, no warning is
    logged, and the history, a commented snapshot and a restore all end in
    that exception; the restore leaves the work file as it was. *)
Lemma malformed_comments_block :
  let self := Demo.the_app Demo.snapshot Demo.copy in
  let w := Demo.w_broken in
  yaml_load self "{" = inl YAMLError
  ∧ _get_snapshot_comments self Demo.old_snapshot w
    = (inl YAMLError, logged w [EvOpen Demo.comments_file "r"])
  ∧ (_get_snapshot_comments self Demo.old_snapshot w).1 ≠ inr (YMap ∅)
  ∧ (find_snapshot_history self Demo.work_file w).1 = inl YAMLError
  ∧ (do_snapshot self Demo.work_file None "wip" w).1 = inl YAMLError
  ∧ (restore_snapshot self Demo.old_snapshot w).1 = inl YAMLError
  ∧ files (restore_snapshot self Demo.old_snapshot w).2 !! Demo.work_file
    = Some "scene, edited".
Proof. vm_compute. repeat split; try reflexivity. discriminate. Qed.

(** ** Timestamps in the history *)


(** The entry of a file before its timestamp is looked at. *)
Lemma details_lookup (d : gmap string pyval) (f : fields) (k : string) :
  k ≠ "version" → k ≠ "increment" →
  foldl (fun (d : gmap string pyval) key_name =>
           match f !! key_name with
           | Some v => <[key_name := v]> d
           | None => d
           end) d ["version"; "increment"] !! k = d !! k.
Proof.
  intros Hv Hi. simpl.
  destruct (f !! "version"), (f !! "increment");
    by rewrite ?lookup_insert_ne.
Qed.

Lemma snapshot_details_run self m file f :
  get_fields (template_snapshot self) file = inr f →
  snapshot_details self (YMap m) file
  = let details :=
      foldl (fun (d : gmap string pyval) key_name =>
               match f !! key_name with
               | Some v => <[key_name := v]> d
               | None => d
               end)
            (<["thumbnail_path" := PStr (_get_thumbnail_file_path file)]>
               (<["comment" := PStr (default "" (m !! os_path.basename file))]>
                  (<["file" := PStr file]> ∅)))
            ["version"; "increment"] in
    match f !! "timestamp" with
    | Some timestamp =>
        if truthy timestamp then
          match timestamp with
          | PStr ts =>
              dt ← Timestamp.strptime ts;
              mret (<["datetime" := PDatetime dt]> details)
          | _ => inl TypeError
          end
        else mret details
    | None => mret details
    end.
Proof. intros Hf. unfold snapshot_details. rewrite Hf. reflexivity. Qed.




(** ** The increment *)

(** C2, against the code: [_find_next_snapshot_increment] returns None
    whatever it is given and whatever snapshots exist, so that a snapshot
    template with an [increment] key gets None for it. *)
Theorem find_next_snapshot_increment_returns_None :
  (∀ snapshot_fields : fields,
     _find_next_snapshot_increment snapshot_fields = PNone)
  ∧ _find_next_snapshot_increment ∅ ≠ PInt 1
  ∧ snapshot_fields (Demo.the_app Demo.snapshot_inc Demo.copy) Demo.noon
      (<["name" := PStr "shot010"]> (<["version" := PInt 3]> ∅))
    !! "increment" = Some PNone.
Proof. split; [reflexivity|]. split; [discriminate|]. vm_compute. reflexivity. Qed.

(** * Further properties *)

(** ** Paths *)

Lemma app_cons (x : ascii) (a b : string) : String x a +:+ b = String x (a +:+ b).
Proof. reflexivity. Qed.

Lemma app_empty_r (a : string) : a +:+ "" = a.
Proof. induction a as [|x a IH]; [reflexivity|]. by rewrite app_cons, IH. Qed.

Lemma take_drop (n : nat) (s : string) : os_path.take n s +:+ os_path.drop n s = s.
Proof.
  revert s. induction n as [|n IH]; intros [|x s]; simpl; try reflexivity.
  by rewrite app_cons, IH.
Qed.

(** Where [rfind] points: at the last occurrence, or nowhere. *)
Lemma rfind_from_spec (c : ascii) (s : string) (i : Z) :
  0 <= i →
  (os_path.rfind_from c s i = -1 ∧ occurs c s = false)
  ∨ (∃ (n : nat) (rest : string),
       os_path.rfind_from c s i = i + Z.of_nat n
       ∧ os_path.drop n s = String c rest ∧ occurs c rest = false).
Proof.
  revert i. induction s as [|x s IH]; intros i Hi; simpl; [by left|].
  destruct (IH (i + 1)) as [[Hr Ho]|(n & rest & Hr & Hd & Ho)]; [lia| |].
  - rewrite Hr. simpl. destruct (Ascii.eqb x c) eqn:Hx.
    + right. exists 0%nat, s. apply Ascii.eqb_eq in Hx as ->.
      split; [lia|]. by split.
    + left. by rewrite Ho.
  - rewrite Hr. replace (0 <=? i + 1 + Z.of_nat n) with true
      by (symmetry; apply Z.leb_le; lia).
    right. exists (S n), rest. split; [lia|]. by split.
Qed.

(** The two halves [splitext] gives make up the path. *)
Lemma splitext_join (p : string) :
  (os_path.splitext p).1 +:+ (os_path.splitext p).2 = p.
Proof.
  unfold os_path.splitext.
  destruct (os_path.rfind "/" p <? os_path.rfind "." p); simpl.
  - destruct (negb _); simpl; [apply take_drop|apply app_empty_r].
  - apply app_empty_r.
Qed.

(** The extension [splitext] gives is empty, or a dot and no other dot. *)
Lemma splitext_ext (p : string) :
  (os_path.splitext p).2 = ""
  ∨ ∃ rest, (os_path.splitext p).2 = String "." rest ∧ occurs "." rest = false.
Proof.
  unfold os_path.splitext.
  destruct (os_path.rfind "/" p <? os_path.rfind "." p) eqn:Hlt; simpl; [|by left].
  destruct (negb _); simpl; [|by left].
  unfold os_path.rfind in *.
  destruct (rfind_from_spec "/" p 0) as [[Hs _]|(k & ? & Hs & _)]; [lia| |];
    (destruct (rfind_from_spec "." p 0) as [[Hr _]|(n & rest & Hr & Hd & Ho)];
       [lia| |]);
    apply Z.ltb_lt in Hlt; try lia;
    right; exists rest; rewrite Hr;
    replace (Z.to_nat (0 + Z.of_nat n)) with n by lia; by split.
Qed.

Lemma app_cancel_l (a b c : string) : a +:+ b = a +:+ c → b = c.
Proof.
  induction a as [|x a IH]; [done|]. rewrite !app_cons. intros [=]. by apply IH.
Qed.

(** X1: the thumbnail of a snapshot is never the snapshot file itself,
    whatever the snapshot path is: the copy of the thumbnail cannot
    overwrite the snapshot. *)
Theorem thumbnail_path_is_not_the_snapshot (snapshot_file_path : string) :
  _get_thumbnail_file_path snapshot_file_path ≠ snapshot_file_path
  ∧ ∃ ext, snapshot_file_path
           = (os_path.splitext snapshot_file_path).1 +:+ ext
           ∧ _get_thumbnail_file_path snapshot_file_path
             = (os_path.splitext snapshot_file_path).1 +:+ ".tank_thumb.png"
           ∧ ext ≠ ".tank_thumb.png".
Proof.
  assert (Hext : (os_path.splitext snapshot_file_path).2 ≠ ".tank_thumb.png").
  { destruct (splitext_ext snapshot_file_path) as [->|(rest & -> & Ho)]; [done|].
    intros [= ->]. vm_compute in Ho. discriminate. }
  split.
  - unfold _get_thumbnail_file_path. intros Heq.
    assert (Hsame : (os_path.splitext snapshot_file_path).1 +:+ ".tank_thumb.png"
                    = (os_path.splitext snapshot_file_path).1
                      +:+ (os_path.splitext snapshot_file_path).2)
      by (by rewrite splitext_join).
    apply app_cancel_l in Hsame. by rewrite <- Hsame in Hext.
  - exists (os_path.splitext snapshot_file_path).2.
    by rewrite splitext_join.
Qed.

(** ** Timestamps written and read back *)

Lemma split_on_app (sep : ascii) (a rest : string) :
  occurs sep a = false →
  Timestamp.split_on sep (a +:+ String sep rest) = a :: Timestamp.split_on sep rest.
Proof.
  induction a as [|x a IH]; intros Ho.
  - simpl. by rewrite Ascii.eqb_refl.
  - simpl in Ho. apply orb_false_iff in Ho as [Hx Ho].
    rewrite app_cons. simpl. rewrite Hx, (IH Ho). reflexivity.
Qed.

Lemma split_on_whole (sep : ascii) (a : string) :
  occurs sep a = false → Timestamp.split_on sep a = [a].
Proof.
  induction a as [|x a IH]; intros Ho; [reflexivity|].
  simpl in Ho. apply orb_false_iff in Ho as [Hx Ho].
  simpl. by rewrite Hx, (IH Ho).
Qed.

Lemma reads_back_all dir width (lo len : Z) :
  forallb (reads_back dir width) (seqZ lo len) = true →
  ∀ z, lo <= z < lo + len →
       dir (Timestamp.zpad width z) = Some z
       ∧ occurs "-" (Timestamp.zpad width z) = false.
Proof.
  intros Hall z Hz. rewrite forallb_forall in Hall.
  assert (Hin : In z (seqZ lo len)) by (apply list_elem_of_In, elem_of_seqZ; lia).
  specialize (Hall z Hin). unfold reads_back in Hall.
  apply andb_true_iff in Hall as [Hd Ho].
  destruct (dir (Timestamp.zpad width z)) as [v|]; [|done].
  apply Z.eqb_eq in Hd as ->. by apply negb_true_iff in Ho.
Qed.

Lemma dir_Y_reads : forallb (reads_back Timestamp.dir_Y 4) (seqZ 0 10000) = true.
Proof. vm_compute. reflexivity. Qed.
Lemma dir_m_reads : forallb (reads_back Timestamp.dir_m 2) (seqZ 1 12) = true.
Proof. vm_compute. reflexivity. Qed.
Lemma dir_d_reads : forallb (reads_back Timestamp.dir_d 2) (seqZ 1 31) = true.
Proof. vm_compute. reflexivity. Qed.
Lemma dir_H_reads : forallb (reads_back Timestamp.dir_H 2) (seqZ 0 24) = true.
Proof. vm_compute. reflexivity. Qed.
Lemma dir_M_reads : forallb (reads_back Timestamp.dir_M 2) (seqZ 0 60) = true.
Proof. vm_compute. reflexivity. Qed.
Lemma dir_S_reads : forallb (reads_back Timestamp.dir_S 2) (seqZ 0 60) = true.
Proof. vm_compute. reflexivity. Qed.

Lemma dash_app (x : string) : "-" +:+ x = String "-" x.
Proof. reflexivity. Qed.

Lemma days_in_month_le (y m : Z) : Timestamp.days_in_month y m <= 31.
Proof.
  unfold Timestamp.days_in_month.
  repeat match goal with |- context [if ?b then _ else _] => destruct b end; lia.
Qed.

Lemma make_datetime_inr y mo d h mi s us t :
  Timestamp.make_datetime y mo d h mi s us = inr t →
  t = Datetime y mo d h mi s us
  ∧ 1 <= y <= 9999 ∧ 1 <= mo <= 12 ∧ 1 <= d <= 31
  ∧ 0 <= h <= 23 ∧ 0 <= mi <= 59 ∧ 0 <= s <= 59.
Proof.
  unfold Timestamp.make_datetime. intros H.
  destruct (_ && _) eqn:Hc in H; [|discriminate].
  injection H as <-.
  repeat (apply andb_true_iff in Hc as [Hc ?]).
  pose proof (days_in_month_le y mo).
  repeat match goal with H : (_ <=? _) = true |- _ => apply Z.leb_le in H end.
  split; [reflexivity|lia].
Qed.

Lemma make_datetime_whole y mo d h mi s us t :
  Timestamp.make_datetime y mo d h mi s us = inr t →
  Timestamp.make_datetime y mo d h mi s 0 = inr (Datetime y mo d h mi s 0).
Proof.
  unfold Timestamp.make_datetime. intros H.
  destruct (_ && _) eqn:Hc in H; [|discriminate].
  apply andb_true_iff in Hc as [Hc _]. apply andb_true_iff in Hc as [Hc _].
  by rewrite Hc.
Qed.

(** What [strftime] writes, [strptime] reads back, less the
    microseconds. *)
Lemma strptime_roundtrip (t : datetime) :
  clock_valid t →
  Timestamp.strptime (Timestamp.strftime t) = inr (whole_seconds t).
Proof.
  intros [Hy Hm].
  destruct (make_datetime_inr _ _ _ _ _ _ _ _ Hm) as (_ & ? & ? & ? & ? & ? & ?).
  destruct (reads_back_all _ _ _ _ dir_Y_reads (year t)) as [HY HYo]; [lia|].
  destruct (reads_back_all _ _ _ _ dir_m_reads (month t)) as [Hmo Hmoo]; [lia|].
  destruct (reads_back_all _ _ _ _ dir_d_reads (day t)) as [Hd Hdo]; [lia|].
  destruct (reads_back_all _ _ _ _ dir_H_reads (hour t)) as [Hh Hho]; [lia|].
  destruct (reads_back_all _ _ _ _ dir_M_reads (minute t)) as [Hmi Hmio]; [lia|].
  destruct (reads_back_all _ _ _ _ dir_S_reads (second t)) as [Hs Hso]; [lia|].
  unfold Timestamp.strptime, Timestamp.strftime.
  rewrite !dash_app.
  rewrite (split_on_app _ _ _ HYo), (split_on_app _ _ _ Hmoo),
    (split_on_app _ _ _ Hdo), (split_on_app _ _ _ Hho),
    (split_on_app _ _ _ Hmio), (split_on_whole _ _ Hso).
  rewrite HY, Hmo, Hd, Hh, Hmi, Hs.
  exact (make_datetime_whole _ _ _ _ _ _ _ _ Hm).
Qed.

(** X3: the fields of a new snapshot are those of the work file, with
    [timestamp] set to the formatted clock reading (replacing one the work
    file may have had) and, when the snapshot template has an [increment]
    key, [increment] set to None; every other field is carried over. *)
Theorem snapshot_fields_carry_work_fields
    (self : app) (t : datetime) (f : fields) :
  snapshot_fields self t f !! "timestamp" = Some (PStr (Timestamp.strftime t))
  ∧ (∀ k, k ≠ "timestamp" → k ≠ "increment" →
          snapshot_fields self t f !! k = f !! k)
  ∧ ("increment" ∈ keys (template_snapshot self) →
     snapshot_fields self t f !! "increment" = Some PNone)
  ∧ ("increment" ∉ keys (template_snapshot self) →
     snapshot_fields self t f !! "increment" = f !! "increment").
Proof.
  unfold snapshot_fields. repeat split.
  - case_bool_decide.
    + by rewrite lookup_insert_ne, lookup_insert_eq.
    + by rewrite lookup_insert_eq.
  - intros k Ht Hi. case_bool_decide; by rewrite ?lookup_insert_ne.
  - intros Hin. rewrite bool_decide_true by done. by rewrite lookup_insert_eq.
  - intros Hin. rewrite bool_decide_false by done. by rewrite lookup_insert_ne.
Qed.

Lemma snapshot_fields_carry_work_fields_witness :
  let f : fields := <["name" := PStr "shot010"]> (<["version" := PInt 3]> ∅) in
  snapshot_fields (Demo.the_app Demo.snapshot_inc Demo.copy) Demo.noon f
    !! "increment" = Some PNone
  ∧ snapshot_fields (Demo.the_app Demo.snapshot Demo.copy) Demo.noon f
      !! "increment" = None.
Proof.
  split.
  - apply (snapshot_fields_carry_work_fields
             (Demo.the_app Demo.snapshot_inc Demo.copy) Demo.noon).
    simpl. rewrite !elem_of_cons. auto.
  - rewrite (proj2 (proj2 (proj2 (snapshot_fields_carry_work_fields
               (Demo.the_app Demo.snapshot Demo.copy) Demo.noon
               (<["name" := PStr "shot010"]> (<["version" := PInt 3]> ∅)))))).
    + reflexivity.
    + simpl. rewrite !elem_of_cons, elem_of_nil. intros [H|[H|[H|H]]]; done.
Defined.

(** X4: a snapshot whose timestamp field is the one [do_snapshot] stamps
    (the formatted clock reading, for a valid reading) gets an entry in
    the history whose [datetime] is that reading cut to whole seconds:
    the microseconds of the clock are not in the path and read back as
    0. *)
Theorem stamped_snapshot_shows_its_datetime
    (self : app) (m : gmap string string) (file : string) (f : fields)
    (t : datetime) :
  clock_valid t →
  get_fields (template_snapshot self) file = inr f →
  f !! "timestamp" = Some (PStr (Timestamp.strftime t)) →
  ∃ d, snapshot_details self (YMap m) file = inr d
       ∧ d !! "datetime" = Some (PDatetime (whole_seconds t))
       ∧ d !! "file" = Some (PStr file).
Proof.
  intros Ht Hf Hts.
  pose proof (strptime_roundtrip t Ht) as Hp.
  assert (Hne : Timestamp.strftime t ≠ "").
  { intros He. rewrite He in Hp. discriminate Hp. }
  rewrite (snapshot_details_run _ _ _ _ Hf). cbv zeta. rewrite Hts.
  change (truthy (PStr ?s)) with (str_truthy s).
  rewrite (str_truthy_true _ Hne), Hp.
  eexists. split; [reflexivity|]. split.
  - by rewrite lookup_insert_eq.
  - rewrite lookup_insert_ne by done. rewrite details_lookup by done.
    rewrite !lookup_insert_ne by done. by rewrite lookup_insert_eq.
Qed.

Lemma stamped_snapshot_shows_its_datetime_witness :
  let file := "/proj/work/snapshots/shot010.v003.2024-01-01-12-30-00.ma" in
  ∃ d, snapshot_details (Demo.the_app Demo.snapshot Demo.copy) (YMap ∅) file = inr d
       ∧ d !! "datetime" = Some (PDatetime (Datetime 2024 1 1 12 30 0 0))
       ∧ d !! "file" = Some (PStr file).
Proof.
  apply (stamped_snapshot_shows_its_datetime
           (Demo.the_app Demo.snapshot Demo.copy) ∅
           "/proj/work/snapshots/shot010.v003.2024-01-01-12-30-00.ma"
           (<["name" := PStr "shot010"]>
              (<["version" := PInt 3]>
                 (<["timestamp" := PStr "2024-01-01-12-30-00"]> ∅)))
           half_past_noon).
  - split; [vm_compute; discriminate|reflexivity].
  - reflexivity.
  - reflexivity.
Defined.

(** ** More on restoring *)

Lemma open_file_run self path w :
  open_file self path w
  = (returns_none (hook_scene_operation self "open" path (files w)).1,
     opened self path w).
Proof.
  unfold open_file. rewrite bind_run, execute_hook_run.
  by destruct (hook_scene_operation self "open" path (files w)).1.
Qed.

(** The end of [restore_snapshot]: copy the snapshot over the work file,
    then open the work file. *)
Lemma restore_tail_run self snapshot_path work_path w1 :
  (log_debug ("Snapshot Restore: Copying " +:+ work_path +:+ " --> "
              +:+ snapshot_path) ;;
   copy_file self snapshot_path work_path ;;
   log_debug ("Snapshot Restore: Opening " +:+ work_path) ;;
   open_file self work_path) w1
  = let w2 := logged w1 [EvLogDebug ("Snapshot Restore: Copying " +:+ work_path
                                     +:+ " --> " +:+ snapshot_path)] in
    let w3 := copied self snapshot_path work_path w2 in
    match (hook_copy_file self snapshot_path work_path (files w2)).1 with
    | inl e => (inl e, w3)
    | inr _ =>
        let w4 := logged w3 [EvLogDebug ("Snapshot Restore: Opening " +:+ work_path)] in
        (returns_none (hook_scene_operation self "open" work_path (files w4)).1,
         opened self work_path w4)
    end.
Proof.
  cbv zeta.
  rewrite (bind_returns _ _ w1 _ tt) by reflexivity.
  rewrite bind_run, copy_file_run.
  destruct (hook_copy_file self snapshot_path work_path _).1; [done|].
  rewrite (bind_returns _ _ _ _ tt) by reflexivity.
  by rewrite open_file_run.
Qed.

(** [restore_snapshot] up to the backup. *)
Lemma restore_snapshot_run self w snapshot_path f work_path :
  snapshot_path ≠ "" →
  save_returns self w →
  validate (template_snapshot self) snapshot_path = true →
  get_fields (template_snapshot self) snapshot_path = inr f →
  apply_fields (template_work self) f = inr work_path →
  restore_snapshot self snapshot_path w
  = let tail :=
      log_debug ("Snapshot Restore: Copying " +:+ work_path +:+ " --> "
                 +:+ snapshot_path) ;;
      copy_file self snapshot_path work_path ;;
      log_debug ("Snapshot Restore: Opening " +:+ work_path) ;;
      open_file self work_path in
    if bool_decide (on_disk (saved self w) work_path) then
      match do_snapshot self work_path None
              ("Automatic snapshot before restoring older snapshot '"
               +:+ os_path.basename snapshot_path +:+ "'") (saved self w) with
      | (inl e, w1) => (inl e, w1)
      | (inr _, w1) => tail w1
      end
    else tail (saved self w).
Proof.
  intros Hne Hs Hv Hf Ha. unfold restore_snapshot.
  rewrite (str_truthy_true _ Hne). cbn [negb].
  rewrite (bind_returns _ _ _ _ _ (save_current_file_returns _ _ Hs)).
  rewrite Hv. cbn [negb]. rewrite Hf.
  rewrite (bind_returns _ _ (saved self w) (saved self w) f) by done.
  rewrite Ha.
  rewrite (bind_returns _ _ (saved self w) (saved self w) work_path) by done.
  rewrite bind_run, exists_run. cbv zeta.
  case_bool_decide.
  - rewrite bind_run. reflexivity.
  - by rewrite (bind_returns _ _ (saved self w) (saved self w) tt).
Qed.

(** The empty path is ignored: [restore_snapshot] returns without
    saving, copying or opening anything, and [find_snapshot_history]
    returns the empty list without asking the templates; the world is
    untouched. *)
Theorem empty_path_is_ignored (self : app) (w : world) :
  restore_snapshot self "" w = (inr tt, w)
  ∧ find_snapshot_history self "" w = (inr [], w).
Proof. split; reflexivity. Qed.

(** X5: when the save hook raises, [do_snapshot] and [restore_snapshot]
    raise that exception and stop there: the only thing asked of the
    collaborators was the save. *)
Theorem failing_save_stops_everything (self : app) (w : world) (e : exn) :
  (hook_scene_operation self "save" "" (files w)).1 = inl e →
  (∀ work_path thumbnail comment,
     do_snapshot self work_path thumbnail comment w = (inl e, saved self w))
  ∧ (∀ snapshot_path, snapshot_path ≠ "" →
       restore_snapshot self snapshot_path w = (inl e, saved self w))
  ∧ trace (saved self w) = (trace w ++ [save_event])%list.
Proof.
  intros Hh. split; [|split; [|done]].
  - intros. by apply do_snapshot_save_raises.
  - intros snapshot_path Hne. unfold restore_snapshot.
    rewrite (str_truthy_true _ Hne). cbn [negb].
    apply bind_raises. by rewrite save_current_file_run, Hh.
Qed.

Lemma failing_save_stops_everything_witness :
  let self := app_with_hooks refusing_save Demo.copy in
  do_snapshot self Demo.work_file None "wip" Demo.w0
  = (inl (HookError "the scene is read-only"), saved self Demo.w0)
  ∧ restore_snapshot self Demo.old_snapshot Demo.w0
    = (inl (HookError "the scene is read-only"), saved self Demo.w0)
  ∧ files (saved self Demo.w0) = Demo.disk.
Proof.
  destruct (failing_save_stops_everything
              (app_with_hooks refusing_save Demo.copy) Demo.w0
              (HookError "the scene is read-only") eq_refl)
    as (Hdo & Hrestore & _).
  split; [apply Hdo|]. split; [by apply Hrestore|reflexivity].
Defined.

(** X6: with the scene saved, [restore_snapshot] raises before any copy
    when the path is not a snapshot path ("... is not a valid snapshot
    path!"), when its fields cannot be read, or when the work template
    cannot be applied to them. *)
Theorem restore_snapshot_rejects_path
    (self : app) (w : world) (snapshot_path : string) :
  snapshot_path ≠ "" →
  save_returns self w →
  (validate (template_snapshot self) snapshot_path = false →
   restore_snapshot self snapshot_path w
   = (inl (TankError (snapshot_path +:+ " is not a valid snapshot path!")),
      saved self w))
  ∧ (∀ e, validate (template_snapshot self) snapshot_path = true →
          get_fields (template_snapshot self) snapshot_path = inl e →
          restore_snapshot self snapshot_path w = (inl e, saved self w))
  ∧ (∀ f e, validate (template_snapshot self) snapshot_path = true →
            get_fields (template_snapshot self) snapshot_path = inr f →
            apply_fields (template_work self) f = inl e →
            restore_snapshot self snapshot_path w = (inl e, saved self w)).
Proof.
  intros Hne Hs. unfold restore_snapshot.
  rewrite (str_truthy_true _ Hne). cbn [negb].
  rewrite (bind_returns _ _ _ _ _ (save_current_file_returns _ _ Hs)).
  split; [|split].
  - intros Hv. by rewrite Hv.
  - intros e Hv Hf. rewrite Hv, Hf. cbn [negb]. by apply bind_raises.
  - intros f e Hv Hf Ha. rewrite Hv, Hf. cbn [negb].
    rewrite (bind_returns _ _ (saved self w) (saved self w) f) by done.
    rewrite Ha. by apply bind_raises.
Qed.

Lemma restore_snapshot_rejects_path_witness :
  restore_snapshot (Demo.the_app Demo.snapshot Demo.copy) Demo.work_file Demo.w0
  = (inl (TankError (Demo.work_file +:+ " is not a valid snapshot path!")),
     saved (Demo.the_app Demo.snapshot Demo.copy) Demo.w0).
Proof.
  destruct (restore_snapshot_rejects_path
              (Demo.the_app Demo.snapshot Demo.copy) Demo.w0 Demo.work_file)
    as [Hinvalid _].
  - discriminate.
  - by exists PNone.
  - apply Hinvalid. reflexivity.
Defined.

(** X7: past the backup step, in the world [w1] that step left (the saved
    world when the work file is not on disk, in which case no snapshot is
    taken; the world the backup left when it returned), [restore_snapshot]
    runs the copy hook from the snapshot to the work path.  If the hook
    raises, the restore raises and the work file is not opened; if it
    returns, the work file is opened and the restore ends as the open hook
    does. *)
Theorem restore_snapshot_copies_then_opens
    (self : app) (w w1 : world) (snapshot_path : string) (f : fields)
    (work_path : string) :
  snapshot_path ≠ "" →
  save_returns self w →
  validate (template_snapshot self) snapshot_path = true →
  get_fields (template_snapshot self) snapshot_path = inr f →
  apply_fields (template_work self) f = inr work_path →
  (¬ on_disk (saved self w) work_path ∧ w1 = saved self w)
  ∨ (on_disk (saved self w) work_path
     ∧ do_snapshot self work_path None
         ("Automatic snapshot before restoring older snapshot '"
          +:+ os_path.basename snapshot_path +:+ "'") (saved self w)
       = (inr tt, w1)) →
  let w2 := logged w1 [EvLogDebug ("Snapshot Restore: Copying " +:+ work_path
                                   +:+ " --> " +:+ snapshot_path)] in
  let w3 := copied self snapshot_path work_path w2 in
  let w4 := logged w3 [EvLogDebug ("Snapshot Restore: Opening " +:+ work_path)] in
  (∀ e, (hook_copy_file self snapshot_path work_path (files w2)).1 = inl e →
        restore_snapshot self snapshot_path w = (inl e, w3)
        ∧ trace w3 = (trace w1
                      ++ [EvLogDebug ("Snapshot Restore: Copying " +:+ work_path
                                      +:+ " --> " +:+ snapshot_path);
                          copy_event snapshot_path work_path])%list)
  ∧ (copy_returns self snapshot_path work_path w2 →
     restore_snapshot self snapshot_path w
     = (returns_none (hook_scene_operation self "open" work_path (files w4)).1,
        opened self work_path w4)).
Proof.
  intros Hne Hs Hv Hf Ha Hcase w2 w3 w4.
  assert (Hrun : restore_snapshot self snapshot_path w
                 = (log_debug ("Snapshot Restore: Copying " +:+ work_path
                               +:+ " --> " +:+ snapshot_path) ;;
                    copy_file self snapshot_path work_path ;;
                    log_debug ("Snapshot Restore: Opening " +:+ work_path) ;;
                    open_file self work_path) w1).
  { rewrite (restore_snapshot_run _ _ _ _ _ Hne Hs Hv Hf Ha). cbv zeta.
    destruct Hcase as [[Hno ->]|[Hyes Hb]].
    - by rewrite bool_decide_false.
    - rewrite bool_decide_true by done. by rewrite Hb. }
  rewrite Hrun, restore_tail_run. cbv zeta. fold w2. fold w3. fold w4.
  split.
  - intros e He. rewrite He. split; [done|].
    unfold w3, w2, copied, logged, moved. simpl. by rewrite <- app_assoc.
  - intros [v Hc]. by rewrite Hc.
Qed.

Lemma restore_snapshot_copies_then_opens_witness :
  let self := Demo.the_app Demo.snapshot Demo.copy in
  let w := World (delete Demo.work_file Demo.disk) Demo.noon [] in
  (restore_snapshot self Demo.old_snapshot w).1 = inr tt
  ∧ files (restore_snapshot self Demo.old_snapshot w).2 !! Demo.work_file
    = Some "scene, as it was".
Proof.
  pose proof (restore_snapshot_copies_then_opens
                (Demo.the_app Demo.snapshot Demo.copy)
                (World (delete Demo.work_file Demo.disk) Demo.noon [])
                (saved (Demo.the_app Demo.snapshot Demo.copy)
                   (World (delete Demo.work_file Demo.disk) Demo.noon []))
                Demo.old_snapshot
                (<["name" := PStr "shot010"]>
                   (<["version" := PInt 3]>
                      (<["timestamp" := PStr "2023-12-31-09-30-00"]> ∅)))
                Demo.work_file) as H.
  cbv zeta in H. destruct H as [_ Hopen].
  - discriminate.
  - by exists PNone.
  - reflexivity.
  - reflexivity.
  - vm_compute. reflexivity.
  - left. split; [|reflexivity]. intros [c Hc]. vm_compute in Hc. discriminate Hc.
  - intros self w. subst self w. rewrite Hopen.
    + split; vm_compute; reflexivity.
    + by exists PNone.
Defined.

(** ** More on creating a snapshot *)

Lemma do_snapshot_underived self work_path thumbnail comment w :
  save_returns self w →
  on_disk (saved self w) work_path →
  validate (template_work self) work_path = true →
  do_snapshot self work_path thumbnail comment w
  = match get_fields (template_work self) work_path with
    | inl e => (inl e, saved self w)
    | inr f =>
        match apply_fields (template_snapshot self)
                (snapshot_fields self (clock w) f) with
        | inl e => (inl e, saved self w)
        | inr _ => do_snapshot self work_path thumbnail comment w
        end
    end.
Proof.
  intros Hs Hyes Hv.
  destruct (get_fields (template_work self) work_path) as [e|f] eqn:Hf.
  - unfold do_snapshot.
    rewrite (bind_returns _ _ _ _ _ (save_current_file_returns _ _ Hs)).
    rewrite bind_run, exists_run. rewrite bool_decide_true by done.
    cbn [negb]. rewrite Hv. cbn [negb]. rewrite Hf. by apply bind_raises.
  - destruct (apply_fields _ _) as [e|sp] eqn:Ha; [|done].
    unfold do_snapshot.
    rewrite (bind_returns _ _ _ _ _ (save_current_file_returns _ _ Hs)).
    rewrite bind_run, exists_run. rewrite bool_decide_true by done.
    cbn [negb]. rewrite Hv. cbn [negb]. rewrite Hf.
    rewrite (bind_returns _ _ (saved self w) (saved self w) f) by done.
    rewrite (bind_returns _ _ (saved self w) (saved self w) (clock w)) by done.
    rewrite Ha. by apply bind_raises.
Qed.

(** X8: when the fields of the work file cannot be read, or the snapshot
    template cannot be applied to the stamped fields, [do_snapshot] raises
    that exception in the world the save left: nothing is copied. *)
Theorem do_snapshot_without_snapshot_path
    (self : app) (w : world) (work_path : string) (thumbnail : option pixmap)
    (comment : string) :
  save_returns self w →
  on_disk (saved self w) work_path →
  validate (template_work self) work_path = true →
  (∀ e, get_fields (template_work self) work_path = inl e →
        do_snapshot self work_path thumbnail comment w = (inl e, saved self w))
  ∧ (∀ f e, get_fields (template_work self) work_path = inr f →
            apply_fields (template_snapshot self)
              (snapshot_fields self (clock w) f) = inl e →
            do_snapshot self work_path thumbnail comment w
            = (inl e, saved self w)).
Proof.
  intros Hs Hyes Hv. split.
  - intros e Hf. rewrite (do_snapshot_underived _ _ _ _ _ Hs Hyes Hv). by rewrite Hf.
  - intros f e Hf Ha.
    rewrite (do_snapshot_underived _ _ _ _ _ Hs Hyes Hv). by rewrite Hf, Ha.
Qed.

Lemma do_snapshot_without_snapshot_path_witness :
  let self := Demo.the_app snapshot_counted Demo.copy in
  do_snapshot self Demo.work_file None "wip" Demo.w0
  = (inl (TankError "Missing or unusable value for key increment"),
     saved self Demo.w0).
Proof.
  destruct (do_snapshot_without_snapshot_path
              (Demo.the_app snapshot_counted Demo.copy) Demo.w0 Demo.work_file
              None "wip") as [_ Happly].
  - by exists PNone.
  - by exists "scene, edited".
  - reflexivity.
  - apply (Happly (<["name" := PStr "shot010"]> (<["version" := PInt 3]> ∅))).
    + reflexivity.
    + vm_compute. reflexivity.
Defined.

(** X9: when the copy hook raises, [do_snapshot] raises that exception
    right after the hook: the snapshot path is not looked for, and no
    comment file is opened. *)
Theorem do_snapshot_failing_copy
    (self : app) (w : world) (work_path : string) (thumbnail : option pixmap)
    (comment : string) (f : fields) (snapshot_path : string) (e : exn) :
  save_returns self w →
  on_disk (saved self w) work_path →
  validate (template_work self) work_path = true →
  get_fields (template_work self) work_path = inr f →
  apply_fields (template_snapshot self) (snapshot_fields self (clock w) f)
  = inr snapshot_path →
  let w2 := logged (saved self w)
              [EvLogDebug ("Snapshot: Copying " +:+ work_path +:+ " --> "
                           +:+ snapshot_path)] in
  let w3 := copied self work_path snapshot_path w2 in
  (hook_copy_file self work_path snapshot_path (files w2)).1 = inl e →
  do_snapshot self work_path thumbnail comment w = (inl e, w3)
  ∧ trace w3 = (trace w ++ [save_event;
                            EvLogDebug ("Snapshot: Copying " +:+ work_path
                                        +:+ " --> " +:+ snapshot_path);
                            copy_event work_path snapshot_path])%list.
Proof.
  intros Hs Hyes Hv Hf Ha w2 w3 Hc. split.
  - rewrite (do_snapshot_run _ _ _ _ _ _ _ Hs Hyes Hv Hf Ha).
    fold w2 w3. by rewrite Hc.
  - unfold w3, w2, copied, logged, saved, moved. simpl.
    by rewrite <- !app_assoc.
Qed.

(** X10: with no comment and no thumbnail, a [do_snapshot] whose copy
    hook returns and leaves the snapshot on disk returns in the world the
    hook left: no comment file is opened or written, and nothing is
    logged after the copy. *)
Theorem do_snapshot_plain
    (self : app) (w : world) (work_path : string) (f : fields)
    (snapshot_path : string) :
  save_returns self w →
  on_disk (saved self w) work_path →
  validate (template_work self) work_path = true →
  get_fields (template_work self) work_path = inr f →
  apply_fields (template_snapshot self) (snapshot_fields self (clock w) f)
  = inr snapshot_path →
  let w2 := logged (saved self w)
              [EvLogDebug ("Snapshot: Copying " +:+ work_path +:+ " --> "
                           +:+ snapshot_path)] in
  let w3 := copied self work_path snapshot_path w2 in
  copy_returns self work_path snapshot_path w2 →
  on_disk w3 snapshot_path →
  do_snapshot self work_path None "" w = (inr tt, w3).
Proof.
  intros Hs Hyes Hv Hf Ha w2 w3 [v Hc] Hthere.
  rewrite (do_snapshot_run _ _ _ _ _ _ _ Hs Hyes Hv Hf Ha).
  fold w2 w3. rewrite Hc. by rewrite bool_decide_true.
Qed.

Lemma do_snapshot_failing_copy_witness :
  let self := app_with_hooks Demo.save_or_open refusing_copy in
  let snapshot_path := "/proj/work/snapshots/shot010.v003.2024-01-01-12-00-00.ma" in
  (do_snapshot self Demo.work_file None "wip" Demo.w0).1
  = inl (HookError ("cannot write " +:+ snapshot_path))
  ∧ trace (do_snapshot self Demo.work_file None "wip" Demo.w0).2
    = [save_event;
       EvLogDebug ("Snapshot: Copying " +:+ Demo.work_file +:+ " --> "
                   +:+ snapshot_path);
       copy_event Demo.work_file snapshot_path].
Proof.
  destruct (do_snapshot_failing_copy
              (app_with_hooks Demo.save_or_open refusing_copy) Demo.w0
              Demo.work_file None "wip"
              (<["name" := PStr "shot010"]> (<["version" := PInt 3]> ∅))
              "/proj/work/snapshots/shot010.v003.2024-01-01-12-00-00.ma"
              (HookError "cannot write /proj/work/snapshots/shot010.v003.2024-01-01-12-00-00.ma"))
    as [Hrun Htrace].
  - by exists PNone.
  - by exists "scene, edited".
  - reflexivity.
  - reflexivity.
  - vm_compute. reflexivity.
  - reflexivity.
  - intros self snapshot_path. subst self. rewrite Hrun. split; [reflexivity|].
    exact Htrace.
Defined.

Lemma do_snapshot_plain_witness :
  let self := Demo.the_app Demo.snapshot Demo.copy in
  let r := do_snapshot self Demo.work_file None "" Demo.w0 in
  r.1 = inr tt
  ∧ files r.2
    = <["/proj/work/snapshots/shot010.v003.2024-01-01-12-00-00.ma" := "scene, edited"]>
        Demo.disk.
Proof.
  intros self r. subst r self.
  rewrite (do_snapshot_plain
             (Demo.the_app Demo.snapshot Demo.copy) Demo.w0 Demo.work_file
             (<["name" := PStr "shot010"]> (<["version" := PInt 3]> ∅))
             "/proj/work/snapshots/shot010.v003.2024-01-01-12-00-00.ma").
  - split; [reflexivity|]. vm_compute. reflexivity.
  - by exists PNone.
  - by exists "scene, edited".
  - reflexivity.
  - reflexivity.
  - vm_compute. reflexivity.
  - by exists PNone.
  - exists "scene, edited". vm_compute. reflexivity.
Defined.

(** ** More on comments *)

(** What [_add_snapshot_comment] leaves on disk. *)
Lemma add_snapshot_comment_files self p c w :
  files (_add_snapshot_comment self p c w).2 = files w
  ∨ ∃ store m,
      _get_comments_file_path self p = inr store
      ∧ validate (template_snapshot self) p = true
      ∧ (load_comments self store w).1 = inr (YMap m)
      ∧ (_add_snapshot_comment self p c w).1 = inr tt
      ∧ files (_add_snapshot_comment self p c w).2
        = <[store := yaml_dump self (<[os_path.basename p := c]> m)]> (files w).
Proof.
  destruct (validate (template_snapshot self) p) eqn:Hv.
  2: { left. by rewrite warn_invalid_path_run. }
  destruct (_get_comments_file_path self p) as [e|store] eqn:Hp.
  { left. unfold _add_snapshot_comment. rewrite Hv, Hp. cbn [negb]. done. }
  pose proof (add_snapshot_comment_run _ _ c w _ Hv Hp) as Hadd.
  cbv zeta in Hadd. rewrite load_comments_run in Hadd. simpl files in Hadd.
  pose proof (load_comments_run self store w) as Hload.
  destruct (files w !! store) as [content|] eqn:Hl.
  - destruct (yaml_load self content) as [e|[m|]] eqn:Hy;
      rewrite Hadd; simpl; [by left| |by left].
    right. exists store, m. by rewrite Hload.
  - right. exists store, ∅. by rewrite Hadd, Hload.
Qed.

(** X11: [_add_snapshot_comment] writes to the comment file of the
    snapshot and to nothing else: every other path keeps its content, and
    when the call raises, or the path is not a snapshot path, no file
    changes at all. *)
Theorem add_snapshot_comment_touches_one_file
    (self : app) (w : world) (snapshot_file_path comment : string) :
  (∀ e, (_add_snapshot_comment self snapshot_file_path comment w).1 = inl e →
        files (_add_snapshot_comment self snapshot_file_path comment w).2 = files w)
  ∧ (validate (template_snapshot self) snapshot_file_path = false →
     files (_add_snapshot_comment self snapshot_file_path comment w).2 = files w)
  ∧ (∀ store path,
       _get_comments_file_path self snapshot_file_path = inr store →
       path ≠ store →
       files (_add_snapshot_comment self snapshot_file_path comment w).2 !! path
       = files w !! path).
Proof.
  destruct (add_snapshot_comment_files self snapshot_file_path comment w)
    as [Hsame|(store & m & Hp & Hv & Hl & Hr & Hfiles)].
  - rewrite Hsame. by repeat split.
  - split; [|split].
    + intros e He. rewrite Hr in He. discriminate.
    + intros Hv'. congruence.
    + intros store' path Hp' Hne. rewrite Hfiles.
      rewrite Hp in Hp'. injection Hp' as <-. by rewrite lookup_insert_ne.
Qed.

Lemma add_snapshot_comment_touches_one_file_witness :
  let self := Demo.the_app Demo.snapshot Demo.copy in
  files (_add_snapshot_comment self Demo.old_snapshot "as delivered" Demo.w0).2
    !! Demo.old_snapshot = Some "scene, as it was"
  ∧ files (_add_snapshot_comment self Demo.old_snapshot "as delivered" Demo.w_broken).2
    = files Demo.w_broken.
Proof.
  split.
  - rewrite (proj2 (proj2 (add_snapshot_comment_touches_one_file
               (Demo.the_app Demo.snapshot Demo.copy) Demo.w0
               Demo.old_snapshot "as delivered")) Demo.comments_file).
    + reflexivity.
    + reflexivity.
    + discriminate.
  - apply (proj1 (add_snapshot_comment_touches_one_file
               (Demo.the_app Demo.snapshot Demo.copy) Demo.w_broken
               Demo.old_snapshot "as delivered") YAMLError).
    vm_compute. reflexivity.
Defined.

(** X12: there is no rollback: when the snapshot has been copied and
    writing its comment raises, [do_snapshot] raises that exception with
    the snapshot file still on disk, every file being as the copy hook
    left it; the thumbnail is not attempted. *)
Theorem do_snapshot_keeps_snapshot_when_comment_fails
    (self : app) (w : world) (work_path : string) (thumbnail : option pixmap)
    (comment : string) (f : fields) (snapshot_path : string) (e : exn) :
  save_returns self w →
  on_disk (saved self w) work_path →
  validate (template_work self) work_path = true →
  get_fields (template_work self) work_path = inr f →
  apply_fields (template_snapshot self) (snapshot_fields self (clock w) f)
  = inr snapshot_path →
  let w2 := logged (saved self w)
              [EvLogDebug ("Snapshot: Copying " +:+ work_path +:+ " --> "
                           +:+ snapshot_path)] in
  let w3 := copied self work_path snapshot_path w2 in
  copy_returns self work_path snapshot_path w2 →
  on_disk w3 snapshot_path →
  comment ≠ "" →
  (_add_snapshot_comment self snapshot_path comment w3).1 = inl e →
  let r := do_snapshot self work_path thumbnail comment w in
  r = (inl e, (_add_snapshot_comment self snapshot_path comment w3).2)
  ∧ files r.2 = files w3
  ∧ on_disk r.2 snapshot_path.
Proof.
  intros Hs Hyes Hv Hf Ha w2 w3 [v Hc] Hthere Hne Hadd r.
  assert (Hr : r = (inl e, (_add_snapshot_comment self snapshot_path comment w3).2)).
  { unfold r. rewrite (do_snapshot_run _ _ _ _ _ _ _ Hs Hyes Hv Hf Ha).
    fold w2 w3. rewrite Hc. rewrite bool_decide_true by done.
    rewrite (str_truthy_true _ Hne). rewrite bind_run.
    destruct (_add_snapshot_comment self snapshot_path comment w3) as [[e'|[]] w4];
      simpl in *; congruence. }
  assert (Hfiles : files r.2 = files w3).
  { rewrite Hr. simpl.
    destruct (add_snapshot_comment_files self snapshot_path comment w3)
      as [Hsame|(? & ? & _ & _ & _ & Hok & _)]; [done|congruence]. }
  split; [done|]. split; [done|]. unfold on_disk. by rewrite Hfiles.
Qed.

Lemma do_snapshot_keeps_snapshot_when_comment_fails_witness :
  let self := Demo.the_app Demo.snapshot Demo.copy in
  let r := do_snapshot self Demo.work_file None "wip" Demo.w_broken in
  r.1 = inl YAMLError
  ∧ on_disk r.2 "/proj/work/snapshots/shot010.v003.2024-01-01-12-00-00.ma".
Proof.
  pose proof (do_snapshot_keeps_snapshot_when_comment_fails
                (Demo.the_app Demo.snapshot Demo.copy) Demo.w_broken
                Demo.work_file None "wip"
                (<["name" := PStr "shot010"]> (<["version" := PInt 3]> ∅))
                "/proj/work/snapshots/shot010.v003.2024-01-01-12-00-00.ma"
                YAMLError) as H.
  cbv zeta in H. destruct H as (Hr & _ & Hon).
  - by exists PNone.
  - by exists "scene, edited".
  - reflexivity.
  - reflexivity.
  - vm_compute. reflexivity.
  - by exists PNone.
  - exists "scene, edited". vm_compute. reflexivity.
  - discriminate.
  - vm_compute. reflexivity.
  - intros self r. subst r self. split; [by rewrite Hr|exact Hon].
Defined.

Lemma get_snapshot_comments_run self p store w :
  _get_comments_file_path self p = inr store →
  _get_snapshot_comments self p w = load_comments self store w.
Proof.
  intros Hp. unfold _get_snapshot_comments. rewrite Hp.
  by rewrite (bind_returns _ _ w w store).
Qed.

(** X13: a comment that was written is read back: after
    [_add_snapshot_comment] for a snapshot path, [_get_snapshot_comments]
    (for that path, or any path with the same comment file) gives the
    mapping that was there with the snapshot's file name mapped to the
    comment; the comments of the other snapshots are kept.  The YAML
    codec is assumed to load back the mapping that is dumped. *)
Theorem comment_written_is_read_back
    (self : app) (w : world) (snapshot_file_path comment store : string)
    (m : gmap string string) :
  validate (template_snapshot self) snapshot_file_path = true →
  _get_comments_file_path self snapshot_file_path = inr store →
  (load_comments self store w).1 = inr (YMap m) →
  let m' := <[os_path.basename snapshot_file_path := comment]> m in
  yaml_load self (yaml_dump self m') = inr (YMap m') →
  let w' := (_add_snapshot_comment self snapshot_file_path comment w).2 in
  (_add_snapshot_comment self snapshot_file_path comment w).1 = inr tt
  ∧ (∀ other, _get_comments_file_path self other = inr store →
              (_get_snapshot_comments self other w').1 = inr (YMap m'))
  ∧ m' !! os_path.basename snapshot_file_path = Some comment
  ∧ (∀ k, k ≠ os_path.basename snapshot_file_path → m' !! k = m !! k).
Proof.
  intros Hv Hp Hl m' Hcodec w'.
  pose proof (add_snapshot_comment_run _ _ comment w _ Hv Hp) as Hadd.
  cbv zeta in Hadd. rewrite load_comments_run in Hadd. simpl files in Hadd.
  rewrite load_comments_run in Hl.
  assert (Hdone : (_add_snapshot_comment self snapshot_file_path comment w).1 = inr tt
                  ∧ files w' = <[store := yaml_dump self m']> (files w)).
  { unfold w'. destruct (files w !! store) as [content|]; simpl in Hl.
    - rewrite Hl in Hadd. rewrite Hadd. by split.
    - injection Hl as <-. rewrite Hadd. by split. }
  destruct Hdone as [Hr Hfiles].
  split; [exact Hr|]. split; [|split].
  - intros other Ho. rewrite (get_snapshot_comments_run _ _ _ _ Ho).
    rewrite load_comments_run, Hfiles.
    rewrite lookup_insert_eq. simpl. exact Hcodec.
  - apply lookup_insert_eq.
  - intros k Hk. by apply lookup_insert_ne.
Qed.

Lemma comment_written_is_read_back_witness :
  let self := Demo.the_app Demo.snapshot Demo.copy in
  let w' := (_add_snapshot_comment self Demo.old_snapshot "as delivered" Demo.w0).2 in
  (_get_snapshot_comments self
     "/proj/work/snapshots/shot010.v007.2024-02-02-10-00-00.ma" w').1
  = inr (YMap (<["shot010.v003.2023-12-31-09-30-00.ma" := "as delivered"]> ∅)).
Proof.
  destruct (comment_written_is_read_back
              (Demo.the_app Demo.snapshot Demo.copy) Demo.w0 Demo.old_snapshot
              "as delivered" Demo.comments_file ∅) as (_ & Hread & _).
  - reflexivity.
  - reflexivity.
  - reflexivity.
  - vm_compute. reflexivity.
  - apply Hread. reflexivity.
Defined.

(** X14: a comment file that loads to something that is not a mapping
    (an empty file loads to None) is not started afresh:
    [_add_snapshot_comment] raises TypeError and leaves the file as it
    was, and building a history entry from such comments raises
    AttributeError. *)
Theorem comments_that_are_no_mapping
    (self : app) (w : world) (snapshot_file_path comment store content : string) :
  _get_comments_file_path self snapshot_file_path = inr store →
  files w !! store = Some content →
  yaml_load self content = inr YOther →
  (validate (template_snapshot self) snapshot_file_path = true →
   _add_snapshot_comment self snapshot_file_path comment w
   = (inl TypeError,
      logged w [EvLogDebug ("Snapshot: Adding comment to file " +:+ store);
                EvOpen store "r"]))
  ∧ _get_snapshot_comments self snapshot_file_path w
    = (inr YOther, logged w [EvOpen store "r"])
  ∧ ∀ file, snapshot_details self YOther file = inl AttributeError.
Proof.
  intros Hp Hl Hy. split; [|split].
  - intros Hv. rewrite (add_snapshot_comment_run _ _ _ _ _ Hv Hp). cbv zeta.
    rewrite load_comments_run. simpl files. rewrite Hl, Hy.
    unfold logged. by rewrite moved_moved.
  - rewrite (get_snapshot_comments_run _ _ _ _ Hp).
    by rewrite load_comments_run, Hl, Hy.
  - reflexivity.
Qed.

Lemma comments_that_are_no_mapping_witness :
  let self := Demo.the_app Demo.snapshot Demo.copy in
  let w := World (<[Demo.comments_file := ""]> Demo.disk) Demo.noon [] in
  (_add_snapshot_comment self Demo.old_snapshot "as delivered" w).1 = inl TypeError
  ∧ (find_snapshot_history self Demo.work_file w).1 = inl AttributeError.
Proof.
  destruct (comments_that_are_no_mapping
              (Demo.the_app Demo.snapshot Demo.copy)
              (World (<[Demo.comments_file := ""]> Demo.disk) Demo.noon [])
              Demo.old_snapshot "as delivered" Demo.comments_file "")
    as (Hadd & _ & _).
  - reflexivity.
  - reflexivity.
  - reflexivity.
  - split; [by rewrite Hadd|]. vm_compute. reflexivity.
Defined.

(** ** Thumbnails *)

Lemma raise_bind {A B} (e : exn) (k : A → M B) (w : world) :
  (raise e ≫= k) w = (inl e, w).
Proof. reflexivity. Qed.

Lemma log_debug_bind {B} (msg : string) (k : unit → M B) (w : world) :
  (log_debug msg ≫= k) w = k tt (logged w [EvLogDebug msg]).
Proof. reflexivity. Qed.

Lemma write_file_bind {B} (path content : string) (k : unit → M B) (w : world) :
  (write_file path content ≫= k) w
  = k tt (moved w [EvOpen path "w"] (<[path := content]> (files w))).
Proof. reflexivity. Qed.

Lemma remove_run path w :
  remove path w
  = match files w !! path with
    | Some _ => (inr tt, moved w [EvRemove path] (delete path (files w)))
    | None => (inl OSError, logged w [EvRemove path])
    end.
Proof.
  unfold remove. rewrite (bind_returns _ _ w (logged w [EvRemove path]) tt) by done.
  rewrite (bind_returns _ _ _ (logged w [EvRemove path]) (files w)) by done.
  by destruct (files w !! path).
Qed.

Lemma remove_gone path w : files (remove path w).2 !! path = None.
Proof.
  rewrite remove_run. destruct (files w !! path) eqn:Hl; simpl; [|done].
  apply lookup_delete_eq.
Qed.

Lemma try_finally_world {A} (body : M A) (cleanup : M unit) w :
  (try_finally body cleanup w).2 = (cleanup (body w).2).2.
Proof.
  unfold try_finally. destruct (body w) as [r w1]. simpl.
  by destruct (cleanup w1) as [[e|u] w2].
Qed.

(** [_add_snapshot_thumbnail] for a pixmap that is not null. *)
Lemma add_snapshot_thumbnail_run self snapshot_file_path pm w :
  isNull pm = false →
  let temp_path := temp_name self (files w) in
  let w1 := moved w [EvOpen temp_path "w"] (<[temp_path := ""]> (files w)) in
  _add_snapshot_thumbnail self snapshot_file_path (Some pm) w
  = try_finally
      (match png pm with
       | None =>
           raise (TankError ("Snapshot: Failed to save thumbnail to '"
                             +:+ temp_path +:+ "'"))
       | Some bytes => write_file temp_path bytes
       end ;;
       log_debug ("Snapshot: Copying " +:+ temp_path +:+ " --> "
                  +:+ _get_thumbnail_file_path snapshot_file_path) ;;
       copy_file self temp_path (_get_thumbnail_file_path snapshot_file_path))
      (remove temp_path) w1.
Proof.
  intros Hn. unfold _add_snapshot_thumbnail. rewrite Hn.
  rewrite (bind_returns _ _ w w (files w)) by done.
  by rewrite bind_run, write_file_run.
Qed.

(** X15: [_add_snapshot_thumbnail] does nothing at all for no thumbnail
    or a null one; for any other it never leaves its temporary file
    behind, whether saving and copying went well or raised. *)
Theorem add_snapshot_thumbnail_cleans_up
    (self : app) (w : world) (snapshot_file_path : string) :
  _add_snapshot_thumbnail self snapshot_file_path None w = (inr tt, w)
  ∧ (∀ pm, isNull pm = true →
           _add_snapshot_thumbnail self snapshot_file_path (Some pm) w = (inr tt, w))
  ∧ (∀ pm, isNull pm = false →
           files (_add_snapshot_thumbnail self snapshot_file_path (Some pm) w).2
           !! temp_name self (files w) = None).
Proof.
  split; [reflexivity|]. split.
  - intros pm Hn. unfold _add_snapshot_thumbnail. by rewrite Hn.
  - intros pm Hn. rewrite (add_snapshot_thumbnail_run _ _ _ _ Hn). cbv zeta.
    rewrite try_finally_world. apply remove_gone.
Qed.

Lemma add_snapshot_thumbnail_cleans_up_witness :
  let self := Demo.the_app Demo.snapshot Demo.copy in
  let r := _add_snapshot_thumbnail self Demo.old_snapshot
             (Some (Pixmap false (Some "PNG bytes"))) Demo.w0 in
  r.1 = inr tt
  ∧ files r.2 !! "/tmp/tanktmp0.png" = None
  ∧ files r.2 !! "/proj/work/snapshots/shot010.v003.2023-12-31-09-30-00.tank_thumb.png"
    = Some "PNG bytes".
Proof.
  split; [vm_compute; reflexivity|]. split; [|vm_compute; reflexivity].
  apply (proj2 (proj2 (add_snapshot_thumbnail_cleans_up
                         (Demo.the_app Demo.snapshot Demo.copy) Demo.w0
                         Demo.old_snapshot))
           (Pixmap false (Some "PNG bytes"))).
  reflexivity.
Defined.

(** X16: when the pixmap cannot be saved, [_add_snapshot_thumbnail]
    raises the "Failed to save thumbnail" error; the temporary file was
    created and removed, and the copy hook was not run. *)
Theorem add_snapshot_thumbnail_unsaved
    (self : app) (w : world) (snapshot_file_path : string) (pm : pixmap) :
  isNull pm = false →
  png pm = None →
  let temp_path := temp_name self (files w) in
  _add_snapshot_thumbnail self snapshot_file_path (Some pm) w
  = (inl (TankError ("Snapshot: Failed to save thumbnail to '"
                     +:+ temp_path +:+ "'")),
     moved w [EvOpen temp_path "w"; EvRemove temp_path]
           (delete temp_path (files w))).
Proof.
  intros Hn Hp temp_path. rewrite (add_snapshot_thumbnail_run _ _ _ _ Hn).
  cbv zeta. fold temp_path. rewrite Hp. unfold try_finally.
  rewrite raise_bind.
  rewrite remove_run. simpl files. rewrite lookup_insert_eq.
  rewrite moved_moved. simpl. by rewrite delete_insert_eq.
Qed.

Lemma add_snapshot_thumbnail_unsaved_witness :
  let self := Demo.the_app Demo.snapshot Demo.copy in
  _add_snapshot_thumbnail self Demo.old_snapshot (Some (Pixmap false None)) Demo.w0
  = (inl (TankError "Snapshot: Failed to save thumbnail to '/tmp/tanktmp0.png'"),
     moved Demo.w0 [EvOpen "/tmp/tanktmp0.png" "w"; EvRemove "/tmp/tanktmp0.png"]
           (delete "/tmp/tanktmp0.png" (files Demo.w0))).
Proof.
  apply (add_snapshot_thumbnail_unsaved
           (Demo.the_app Demo.snapshot Demo.copy) Demo.w0 Demo.old_snapshot
           (Pixmap false None)); reflexivity.
Defined.

(** X17: when the pixmap is saved, the copy hook is run from the
    temporary file, which then holds the PNG bytes, to the thumbnail path
    of the snapshot.  If the hook left the temporary file in place, the
    call ends as the hook did and the file is removed; if the hook took
    it away, the call raises the OSError of [os.remove], whatever the
    hook's own outcome. *)
Theorem add_snapshot_thumbnail_saved
    (self : app) (w : world) (snapshot_file_path : string) (pm : pixmap)
    (bytes : string) :
  isNull pm = false →
  png pm = Some bytes →
  let temp_path := temp_name self (files w) in
  let thumbnail_path := _get_thumbnail_file_path snapshot_file_path in
  let hook := hook_copy_file self temp_path thumbnail_path
                (<[temp_path := bytes]> (files w)) in
  let r := _add_snapshot_thumbnail self snapshot_file_path (Some pm) w in
  r.1 = (if bool_decide (is_Some (hook.2 !! temp_path))
         then returns_none hook.1 else inl OSError)
  ∧ files r.2 = delete temp_path hook.2
  ∧ trace r.2 = (trace w ++ [EvOpen temp_path "w"; EvOpen temp_path "w";
                             EvLogDebug ("Snapshot: Copying " +:+ temp_path
                                         +:+ " --> " +:+ thumbnail_path);
                             copy_event temp_path thumbnail_path;
                             EvRemove temp_path])%list.
Proof.
  intros Hn Hp temp_path thumbnail_path hook r. subst r.
  rewrite (add_snapshot_thumbnail_run _ _ _ _ Hn). cbv zeta.
  fold temp_path thumbnail_path. rewrite Hp. unfold try_finally.
  rewrite write_file_bind, log_debug_bind.
  rewrite copy_file_run. rewrite remove_run.
  unfold copied, logged. rewrite !moved_moved. simpl files.
  rewrite insert_insert_eq. fold hook.
  destruct (hook.2 !! temp_path) as [c|] eqn:Hl.
  - rewrite bool_decide_true by (by exists c). by repeat split.
  - rewrite bool_decide_false by (intros [c Hc]; congruence).
    unfold logged. rewrite ?moved_moved. simpl. rewrite delete_id by done.
    by repeat split.
Qed.

Lemma add_snapshot_thumbnail_saved_witness :
  let self := Demo.the_app Demo.snapshot Demo.copy in
  let r := _add_snapshot_thumbnail self Demo.old_snapshot
             (Some (Pixmap false (Some "PNG bytes"))) Demo.w0 in
  r.1 = inr tt
  ∧ files r.2
    = <["/proj/work/snapshots/shot010.v003.2023-12-31-09-30-00.tank_thumb.png"
        := "PNG bytes"]> Demo.disk.
Proof.
  destruct (add_snapshot_thumbnail_saved
              (Demo.the_app Demo.snapshot Demo.copy) Demo.w0 Demo.old_snapshot
              (Pixmap false (Some "PNG bytes")) "PNG bytes" eq_refl eq_refl)
    as (Hr & Hfiles & _).
  split.
  - rewrite Hr. vm_compute. reflexivity.
  - rewrite Hfiles. vm_compute. reflexivity.
Defined.

(** ** More on the history *)

Lemma mapM_returns {A B} (g : A → res B) (l : list A) (k : list B) :
  mapM g l = inr k → Forall2 (λ x y, g x = inr y) l k.
Proof.
  revert k. induction l as [|a l IH]; intros k; simpl.
  - intros [= <-]. constructor.
  - destruct (g a) as [e|b] eqn:Ha; simpl; [discriminate|].
    destruct (mapM g l) as [e|k'] eqn:Hl; simpl; [discriminate|].
    intros [= <-]. constructor; [done|]. by apply IH.
Qed.

Lemma load_comments_world self store w :
  ∃ evs, (load_comments self store w).2 = logged w evs
         ∧ Forall (λ ev, ∃ path, ev = EvOpen path "r") evs.
Proof.
  rewrite load_comments_run. destruct (files w !! store).
  - exists [EvOpen store "r"]. split; [done|]. repeat constructor. by exists store.
  - exists []. split; [|constructor].
    destruct w. unfold logged, moved. simpl. by rewrite app_nil_r.
Qed.

Lemma logged_nil w : logged w [] = w.
Proof. destruct w. unfold logged, moved. simpl. by rewrite app_nil_r. Qed.

Lemma history_of_fields_world self f w :
  ∃ evs, (history_of_fields self f w).2 = logged w evs
         ∧ Forall (λ ev, ∃ path, ev = EvOpen path "r") evs.
Proof.
  unfold history_of_fields.
  rewrite (bind_returns _ _ w w (files w)) by done.
  destruct (paths_from_template self _ f _ (files w)) as [e|l] eqn:Hl.
  { exists []. rewrite logged_nil. split; [done|constructor]. }
  rewrite (bind_returns _ _ w w l) by done.
  destruct l as [|file0 l'].
  { exists []. rewrite logged_nil. split; [done|constructor]. }
  rewrite bind_run. unfold _get_snapshot_comments.
  destruct (_get_comments_file_path self file0) as [e|store] eqn:Hp.
  { exists []. rewrite logged_nil. split; [done|constructor]. }
  rewrite (bind_returns _ _ w w store) by done.
  destruct (load_comments_world self store w) as (evs & Hw & Hevs).
  exists evs. split; [|done].
  destruct (load_comments self store w) as [[e|c] w1]; simpl in *; [done|].
  done.
Qed.

(** X18: [find_snapshot_history] only reads: whatever it returns or
    raises, the files are the ones it found, and all it did was open
    files for reading; no hook is run, nothing is logged or written. *)
Theorem find_snapshot_history_reads_only
    (self : app) (w : world) (file_path : string) :
  ∃ evs, (find_snapshot_history self file_path w).2 = logged w evs
         ∧ files (find_snapshot_history self file_path w).2 = files w
         ∧ Forall (λ ev, ∃ path, ev = EvOpen path "r") evs.
Proof.
  assert (H : ∃ evs, (find_snapshot_history self file_path w).2 = logged w evs
                     ∧ Forall (λ ev, ∃ path, ev = EvOpen path "r") evs).
  { unfold find_snapshot_history.
    destruct (str_truthy file_path); cbn [negb].
    2: { exists []. rewrite logged_nil. split; [done|constructor]. }
    destruct (validate (template_work self) file_path).
    { destruct (get_fields (template_work self) file_path) as [e|f].
      - exists []. rewrite logged_nil. split; [done|constructor].
      - rewrite (bind_returns _ _ w w f) by done. apply history_of_fields_world. }
    destruct (validate (template_snapshot self) file_path).
    { destruct (get_fields (template_snapshot self) file_path) as [e|f].
      - exists []. rewrite logged_nil. split; [done|constructor].
      - rewrite (bind_returns _ _ w w f) by done. apply history_of_fields_world. }
    exists []. rewrite logged_nil. split; [done|constructor]. }
  destruct H as (evs & Hw & Hevs). exists evs.
  split; [done|]. split; [|done]. by rewrite Hw.
Qed.

Lemma details_carry (d : gmap string pyval) (g : fields) :
  d !! "version" = None → d !! "increment" = None →
  let d' := foldl (fun (d : gmap string pyval) key_name =>
                     match g !! key_name with
                     | Some v => <[key_name := v]> d
                     | None => d
                     end) d ["version"; "increment"] in
  d' !! "version" = g !! "version" ∧ d' !! "increment" = g !! "increment".
Proof.
  intros Hv Hi. simpl.
  destruct (g !! "version") as [v|], (g !! "increment") as [i|]; split;
    rewrite ?lookup_insert_eq, ?lookup_insert_ne by done;
    by rewrite ?lookup_insert_eq.
Qed.

(** What an entry of the history holds. *)
Lemma snapshot_details_entry self m file d :
  snapshot_details self (YMap m) file = inr d →
  d !! "file" = Some (PStr file)
  ∧ d !! "thumbnail_path" = Some (PStr (_get_thumbnail_file_path file))
  ∧ d !! "comment" = Some (PStr (default "" (m !! os_path.basename file)))
  ∧ ∃ g, get_fields (template_snapshot self) file = inr g
         ∧ d !! "version" = g !! "version"
         ∧ d !! "increment" = g !! "increment".
Proof.
  destruct (get_fields (template_snapshot self) file) as [e|g] eqn:Hg.
  { unfold snapshot_details. rewrite Hg. discriminate. }
  rewrite (snapshot_details_run _ _ _ _ Hg). cbv zeta.
  set (base := <["thumbnail_path" := _]> _).
  assert (Hb : base !! "file" = Some (PStr file)
               ∧ base !! "thumbnail_path" = Some (PStr (_get_thumbnail_file_path file))
               ∧ base !! "comment"
                 = Some (PStr (default "" (m !! os_path.basename file)))
               ∧ base !! "version" = None ∧ base !! "increment" = None).
  { unfold base. repeat split;
      rewrite ?lookup_insert_eq, ?lookup_insert_ne by done;
      by rewrite ?lookup_insert_eq, ?lookup_insert_ne by done. }
  destruct Hb as (Hfile & Hthumb & Hcomment & Hv & Hi).
  destruct (details_carry base g Hv Hi) as [Hcv Hci].
  set (d' := foldl _ base _) in *.
  assert (Hd' : d' !! "file" = Some (PStr file)
                ∧ d' !! "thumbnail_path"
                  = Some (PStr (_get_thumbnail_file_path file))
                ∧ d' !! "comment"
                  = Some (PStr (default "" (m !! os_path.basename file)))).
  { unfold d'. by rewrite !details_lookup. }
  destruct Hd' as (Hf' & Ht' & Hc').
  assert (Hplain : d = d' →
            d !! "file" = Some (PStr file)
            ∧ d !! "thumbnail_path" = Some (PStr (_get_thumbnail_file_path file))
            ∧ d !! "comment" = Some (PStr (default "" (m !! os_path.basename file)))
            ∧ ∃ g0, (inr g : res fields) = inr g0 ∧ d !! "version" = g0 !! "version"
                    ∧ d !! "increment" = g0 !! "increment").
  { intros ->. repeat split; try done. by exists g. }
  destruct (g !! "timestamp") as [ts|]; [|intros [= <-]; by apply Hplain].
  destruct (truthy ts); [|intros [= <-]; by apply Hplain].
  destruct ts as [|z|s|dt]; try discriminate.
  destruct (Timestamp.strptime s) as [e|dt]; simpl; [discriminate|].
  intros [= <-]. rewrite !lookup_insert_ne by done.
  repeat split; try done. by exists g.
Qed.

(** X19: the history is complete and in the order of the listing: when
    [find_snapshot_history] returns for a path that a template takes,
    there is one entry per listed snapshot path, in order, and the entry
    of a path has that path as [file], its thumbnail path, the comment
    stored under its file name in the comment file of the first listed
    path (the empty string when there is none), and the [version] and
    [increment] of the path's fields when they have them. *)
Theorem find_snapshot_history_complete
    (self : app) (w w' : world) (file_path : string) (f : fields)
    (listed : list string) (h : list (gmap string pyval)) :
  file_path ≠ "" →
  (validate (template_work self) file_path = true
   ∧ get_fields (template_work self) file_path = inr f)
  ∨ (validate (template_work self) file_path = false
     ∧ validate (template_snapshot self) file_path = true
     ∧ get_fields (template_snapshot self) file_path = inr f) →
  paths_from_template self (template_snapshot self) f
    ["version"; "timestamp"; "increment"] (files w) = inr listed →
  find_snapshot_history self file_path w = (inr h, w') →
  length h = length listed
  ∧ ∃ m, (∀ file0 rest, listed = file0 :: rest →
                        (_get_snapshot_comments self file0 w).1 = inr (YMap m))
         ∧ Forall2
             (λ file d,
                d !! "file" = Some (PStr file)
                ∧ d !! "thumbnail_path" = Some (PStr (_get_thumbnail_file_path file))
                ∧ d !! "comment"
                  = Some (PStr (default "" (m !! os_path.basename file)))
                ∧ ∃ g, get_fields (template_snapshot self) file = inr g
                       ∧ d !! "version" = g !! "version"
                       ∧ d !! "increment" = g !! "increment")
             listed h.
Proof.
  intros Hne Hres Hl Hfind.
  assert (Hh : history_of_fields self f w = (inr h, w')).
  { unfold find_snapshot_history in Hfind.
    rewrite (str_truthy_true _ Hne) in Hfind. cbn [negb] in Hfind.
    destruct Hres as [[Hv Hf]|(Hv & Hs & Hf)].
    - rewrite Hv, Hf in Hfind. by rewrite (bind_returns _ _ w w f) in Hfind.
    - rewrite Hv, Hs, Hf in Hfind. by rewrite (bind_returns _ _ w w f) in Hfind. }
  clear Hfind. unfold history_of_fields in Hh.
  rewrite (bind_returns _ _ w w (files w)) in Hh by done.
  rewrite Hl in Hh. rewrite (bind_returns _ _ w w listed) in Hh by done.
  destruct listed as [|file0 rest].
  { unfold mret, M_ret in Hh. injection Hh as <- <-.
    split; [reflexivity|]. exists ∅. split; [|constructor].
    intros file0 rest Hnil. discriminate Hnil. }
  rewrite bind_run in Hh.
  destruct (_get_snapshot_comments self file0 w) as [[e|c] w1] eqn:Hc; [discriminate|].
  unfold lift in Hh.
  destruct (mapM (snapshot_details self c) (file0 :: rest)) as [e|k] eqn:Hm;
    [discriminate|].
  injection Hh as <- <-.
  pose proof (mapM_returns _ _ _ Hm) as Hall.
  destruct c as [m|].
  2: { (* comments that are no mapping give no entry *)
       inversion Hall as [|? ? ? ? Hd]; subst. discriminate Hd. }
  split; [symmetry; by eapply Forall2_length|].
  exists m. split.
  - intros ? ? [= <- <-]. by rewrite Hc.
  - eapply Forall2_impl; [exact Hall|].
    intros file d Hd. by apply snapshot_details_entry.
Qed.

Lemma find_snapshot_history_complete_witness :
  let self := Demo.the_app Demo.snapshot Demo.copy in
  let w := (do_snapshot self Demo.work_file None "wip" Demo.w0).2 in
  ∃ h, (find_snapshot_history self Demo.work_file w).1 = inr h ∧ length h = 2%nat.
Proof.
  intros self w.
  destruct (find_snapshot_history self Demo.work_file w) as [[e|h] w'] eqn:Hfind;
    [vm_compute in Hfind; discriminate Hfind|].
  exists h. split; [reflexivity|].
  destruct (find_snapshot_history_complete
              self w w' Demo.work_file
              (<["name" := PStr "shot010"]> (<["version" := PInt 3]> ∅))
              [Demo.old_snapshot;
               "/proj/work/snapshots/shot010.v003.2024-01-01-12-00-00.ma"] h)
    as [Hlen _].
  - discriminate.
  - left. split; reflexivity.
  - vm_compute. reflexivity.
  - exact Hfind.
  - exact Hlen.
Defined.

(** ** A snapshot and its comment *)

Lemma add_snapshot_comment_returns self p c w store m :
  validate (template_snapshot self) p = true →
  _get_comments_file_path self p = inr store →
  (load_comments self store w).1 = inr (YMap m) →
  ∃ w4, _add_snapshot_comment self p c w = (inr tt, w4)
        ∧ files w4
          = <[store := yaml_dump self (<[os_path.basename p := c]> m)]> (files w).
Proof.
  intros Hv Hp Hl.
  pose proof (add_snapshot_comment_run _ _ c w _ Hv Hp) as Hadd.
  cbv zeta in Hadd. rewrite load_comments_run in Hadd. simpl files in Hadd.
  rewrite load_comments_run in Hl.
  destruct (files w !! store) as [content|]; simpl in Hl.
  - rewrite Hl in Hadd. rewrite Hadd. eexists. by split.
  - injection Hl as <-. rewrite Hadd. eexists. by split.
Qed.


(** X20: a comment given to [do_snapshot] is recorded before the
    thumbnail is turned to, and can be read back: when the copy went
    through and the snapshot path is a snapshot path, the comment step
    returns in a world where the snapshot is on disk and
    [_get_snapshot_comments] for the new snapshot gives the earlier
    comments with the new snapshot's file name mapped to the comment;
    [do_snapshot] then ends as the thumbnail step does from that world,
    and returns in that very world when there is no thumbnail or a null
    one.  The YAML codec is assumed to load back the mapping that is
    dumped. *)
Theorem do_snapshot_records_comment
    (self : app) (w : world) (work_path : string) (thumbnail : option pixmap)
    (comment : string) (f : fields) (snapshot_path store : string)
    (m : gmap string string) :
  save_returns self w →
  on_disk (saved self w) work_path →
  validate (template_work self) work_path = true →
  get_fields (template_work self) work_path = inr f →
  apply_fields (template_snapshot self) (snapshot_fields self (clock w) f)
  = inr snapshot_path →
  let w2 := logged (saved self w)
              [EvLogDebug ("Snapshot: Copying " +:+ work_path +:+ " --> "
                           +:+ snapshot_path)] in
  let w3 := copied self work_path snapshot_path w2 in
  copy_returns self work_path snapshot_path w2 →
  on_disk w3 snapshot_path →
  comment ≠ "" →
  validate (template_snapshot self) snapshot_path = true →
  _get_comments_file_path self snapshot_path = inr store →
  (load_comments self store w3).1 = inr (YMap m) →
  let m' := <[os_path.basename snapshot_path := comment]> m in
  yaml_load self (yaml_dump self m') = inr (YMap m') →
  ∃ w4,
    _add_snapshot_comment self snapshot_path comment w3 = (inr tt, w4)
    ∧ on_disk w4 snapshot_path
    ∧ (_get_snapshot_comments self snapshot_path w4).1 = inr (YMap m')
    ∧ m' !! os_path.basename snapshot_path = Some comment
    ∧ do_snapshot self work_path thumbnail comment w
      = _add_snapshot_thumbnail self snapshot_path thumbnail w4
    ∧ (thumbnail = None ∨ (∃ pm, thumbnail = Some pm ∧ isNull pm = true) →
       do_snapshot self work_path thumbnail comment w = (inr tt, w4)).
Proof.
  intros Hs Hyes Hv Hf Ha w2 w3 [v Hc] Hthere Hne Hvs Hp Hl m' Hcodec.
  pose proof (add_snapshot_comment_returns _ _ comment _ _ _ Hvs Hp Hl) as Hdone.
  destruct Hdone as (w4 & Hw4 & Hfiles).
  assert (Hr : do_snapshot self work_path thumbnail comment w
               = _add_snapshot_thumbnail self snapshot_path thumbnail w4).
  { rewrite (do_snapshot_run _ _ _ _ _ _ _ Hs Hyes Hv Hf Ha).
    fold w2 w3. rewrite Hc. rewrite bool_decide_true by done.
    rewrite (str_truthy_true _ Hne). rewrite (bind_returns _ _ _ _ _ Hw4).
    by destruct thumbnail. }
  exists w4. split; [exact Hw4|]. split; [|split; [|split; [|split]]].
  - unfold on_disk. rewrite Hfiles.
    destruct (decide (snapshot_path = store)) as [->|Hd].
    + rewrite lookup_insert_eq. by eexists.
    + by rewrite lookup_insert_ne.
  - rewrite (get_snapshot_comments_run _ _ _ _ Hp), load_comments_run, Hfiles.
    rewrite lookup_insert_eq. simpl. exact Hcodec.
  - apply lookup_insert_eq.
  - exact Hr.
  - rewrite Hr. intros [->|(pm & -> & Hn)]; [reflexivity|].
    unfold _add_snapshot_thumbnail. by rewrite Hn.
Qed.

Lemma do_snapshot_records_comment_witness :
  let self := Demo.the_app Demo.snapshot Demo.copy in
  let snapshot_path := "/proj/work/snapshots/shot010.v003.2024-01-01-12-00-00.ma" in
  let thumbnail := Some (Pixmap false (Some "PNG bytes")) in
  let r := do_snapshot self Demo.work_file thumbnail "wip" Demo.w0 in
  r.1 = inr tt
  ∧ on_disk r.2 snapshot_path
  ∧ (_get_snapshot_comments self snapshot_path r.2).1
    = inr (YMap (<["shot010.v003.2024-01-01-12-00-00.ma" := "wip"]> ∅))
  ∧ ∃ w4, r = _add_snapshot_thumbnail self snapshot_path thumbnail w4
          ∧ (_get_snapshot_comments self snapshot_path w4).1
            = inr (YMap (<["shot010.v003.2024-01-01-12-00-00.ma" := "wip"]> ∅)).
Proof.
  pose proof (do_snapshot_records_comment
                (Demo.the_app Demo.snapshot Demo.copy) Demo.w0 Demo.work_file
                (Some (Pixmap false (Some "PNG bytes"))) "wip"
                (<["name" := PStr "shot010"]> (<["version" := PInt 3]> ∅))
                "/proj/work/snapshots/shot010.v003.2024-01-01-12-00-00.ma"
                Demo.comments_file ∅) as H.
  cbv zeta in H. destruct H as (w4 & _ & _ & Hread & _ & Hr & _).
  - by exists PNone.
  - by exists "scene, edited".
  - reflexivity.
  - reflexivity.
  - vm_compute. reflexivity.
  - by exists PNone.
  - exists "scene, edited". vm_compute. reflexivity.
  - discriminate.
  - reflexivity.
  - reflexivity.
  - vm_compute. reflexivity.
  - vm_compute. reflexivity.
  - intros self snapshot_path thumbnail r. subst r self snapshot_path thumbnail.
    split; [vm_compute; reflexivity|].
    split; [vm_compute; eexists; reflexivity|].
    split; [vm_compute; reflexivity|].
    exists w4. split; [exact Hr|exact Hread].
Defined.

(** X21: when the snapshot template does not take the path it has just
    produced, the comment is dropped with a warning, no comment file is
    opened and no file changes: [do_snapshot] goes on to the thumbnail
    from the world the copy hook left plus that warning, ends as the
    thumbnail step does, and returns in that very world when there is no
    thumbnail or a null one. *)
Theorem do_snapshot_drops_comment_of_odd_path
    (self : app) (w : world) (work_path : string) (thumbnail : option pixmap)
    (comment : string) (f : fields) (snapshot_path : string) :
  save_returns self w →
  on_disk (saved self w) work_path →
  validate (template_work self) work_path = true →
  get_fields (template_work self) work_path = inr f →
  apply_fields (template_snapshot self) (snapshot_fields self (clock w) f)
  = inr snapshot_path →
  let w2 := logged (saved self w)
              [EvLogDebug ("Snapshot: Copying " +:+ work_path +:+ " --> "
                           +:+ snapshot_path)] in
  let w3 := copied self work_path snapshot_path w2 in
  copy_returns self work_path snapshot_path w2 →
  on_disk w3 snapshot_path →
  comment ≠ "" →
  validate (template_snapshot self) snapshot_path = false →
  let w4 := logged w3 [EvLogWarning ("Could not add comment to invalid snapshot path "
                                     +:+ snapshot_path +:+ "!")] in
  files w4 = files w3
  ∧ do_snapshot self work_path thumbnail comment w
    = _add_snapshot_thumbnail self snapshot_path thumbnail w4
  ∧ (thumbnail = None ∨ (∃ pm, thumbnail = Some pm ∧ isNull pm = true) →
     do_snapshot self work_path thumbnail comment w = (inr tt, w4)).
Proof.
  intros Hs Hyes Hv Hf Ha w2 w3 [v Hc] Hthere Hne Hvs w4.
  assert (Hr : do_snapshot self work_path thumbnail comment w
               = _add_snapshot_thumbnail self snapshot_path thumbnail w4).
  { rewrite (do_snapshot_run _ _ _ _ _ _ _ Hs Hyes Hv Hf Ha).
    fold w2 w3. rewrite Hc. rewrite bool_decide_true by done.
    rewrite (str_truthy_true _ Hne).
    rewrite (bind_returns _ _ _ _ _ (warn_invalid_path_run _ _ _ _ Hvs)).
    fold w4. by destruct thumbnail. }
  split; [reflexivity|]. split; [exact Hr|].
  rewrite Hr. intros [->|(pm & -> & Hn)]; [reflexivity|].
  unfold _add_snapshot_thumbnail. by rewrite Hn.
Qed.

Lemma do_snapshot_drops_comment_of_odd_path_witness :
  let self := Demo.the_app snapshot_blind Demo.copy in
  let snapshot_path := "/proj/work/snapshots/shot010.v003.2024-01-01-12-00-00.ma" in
  let r := do_snapshot self Demo.work_file None "wip" Demo.w0 in
  r.1 = inr tt
  ∧ files r.2 = <[snapshot_path := "scene, edited"]> Demo.disk
  ∧ last (trace r.2)
    = Some (EvLogWarning ("Could not add comment to invalid snapshot path "
                          +:+ snapshot_path +:+ "!")).
Proof.
  pose proof (do_snapshot_drops_comment_of_odd_path
                (Demo.the_app snapshot_blind Demo.copy) Demo.w0 Demo.work_file
                None "wip"
                (<["name" := PStr "shot010"]> (<["version" := PInt 3]> ∅))
                "/proj/work/snapshots/shot010.v003.2024-01-01-12-00-00.ma") as H.
  cbv zeta in H. destruct H as (_ & _ & Hplain).
  - by exists PNone.
  - by exists "scene, edited".
  - reflexivity.
  - reflexivity.
  - vm_compute. reflexivity.
  - by exists PNone.
  - exists "scene, edited". vm_compute. reflexivity.
  - discriminate.
  - reflexivity.
  - intros self snapshot_path r. subst r self snapshot_path.
    rewrite (Hplain (or_introl eq_refl)).
    split; [reflexivity|]. split; vm_compute; reflexivity.
Defined.
